(** * PDFConverter: the conversion session of [src/components/PDFConverter.tsx]

    A shallow embedding of the React component [PDFConverter]: its state
    record, the functional [setState] updates its handlers enqueue, the
    asynchronous [convertPDFToImages] call as a resumable machine, the
    aspect-fit placement of [downloadImagePDF] and the output file name.

    The progress of a run is read over exact rationals ([Q]).  The placement
    of an image is computed as the code computes it, in binary64 doubles
    ([placeImage64]); [placeImage] is the same formulas in exact
    arithmetic. *)

From Stdlib Require Import Floats.
From Stdlib Require Import ZArith QArith Qfield List String Ascii Bool Lia Arith.
From Stdlib Require Import Qround Lqa.
Import ListNotations.

Local Open Scope string_scope.
Local Open Scope list_scope.

(** ** Data model (lines 14-35) *)

Inductive Status := idle | processing | completed | error.

Inductive Quality := high | medium | low.

(** The part of a DOM [File] the component reads: [name] and [type]. *)
Record File := mkFile { name : string; type : string }.

(** [interface ConversionState]; [pages] holds the data URLs. *)
Record ConversionState := mkState {
  file : option File;
  pages : list string;
  progress : Q;
  status : Status;
  quality : Quality
}.

(** [useState] initial value, lines 23-29. *)
Definition initialState : ConversionState :=
  mkState None [] 0 idle high.

Record Settings := mkSettings { scale : Q; format : string; jpegQuality : Q }.

(** [qualitySettings], lines 31-35. *)
Definition qualitySettings (q : Quality) : Settings :=
  match q with
  | high => mkSettings 2 "image/jpeg" (95 # 100)
  | medium => mkSettings (3 # 2) "image/jpeg" (85 # 100)
  | low => mkSettings 1 "image/jpeg" (75 # 100)
  end.

Definition status_eqb (a b : Status) : bool :=
  match a, b with
  | idle, idle | processing, processing
  | completed, completed | error, error => true
  | _, _ => false
  end.

Definition isPdf (f : File) : bool := String.eqb (type f) "application/pdf".

(** ** Functional state updates

    Every [setState(prev => ({ ...prev, ... }))] of the component, as data.
    An update is applied to whatever the store holds when React runs it. *)

Inductive Update :=
| ULoad (f : File)                              (* lines 45 and 65 *)
| UStart                                        (* line 75 *)
| UPage (p : Q) (images : list string)          (* line 107 *)
| UCompleted (images : list string)             (* line 111 *)
| UError                                        (* line 115 *)
| UQuality (q : Quality).                       (* line 235 *)

Definition applyUpdate (u : Update) (prev : ConversionState) : ConversionState :=
  match u with
  | ULoad f => mkState (Some f) [] 0 idle (quality prev)
  | UStart => mkState (file prev) [] 0 processing (quality prev)
  | UPage p images => mkState (file prev) images p (status prev) (quality prev)
  | UCompleted images =>
      mkState (file prev) images (progress prev) completed (quality prev)
  | UError =>
      mkState (file prev) (pages prev) (progress prev) error (quality prev)
  | UQuality q =>
      mkState (file prev) (pages prev) (progress prev) (status prev) q
  end.

Definition applyOpt (u : option Update) (st : ConversionState) : ConversionState :=
  match u with
  | Some u => applyUpdate u st
  | None => st
  end.

(** ** Event handlers *)

(** [handleFileSelect], lines 62-70; the argument is [e.target.files?.[0]]. *)
Definition handleFileSelect (f : option File) (st : ConversionState)
  : ConversionState :=
  match f with
  | Some f => if isPdf f then applyUpdate (ULoad f) st else st
  | None => st
  end.

(** [onDrop], lines 37-50; the argument is [e.dataTransfer.files]. *)
Definition onDrop (files : list File) (st : ConversionState) : ConversionState :=
  match List.find isPdf files with
  | Some pdfFile => applyUpdate (ULoad pdfFile) st
  | None => st
  end.

(** [onValueChange] of the quality [Select], lines 234-236. *)
Definition onValueChange (value : Quality) (st : ConversionState)
  : ConversionState :=
  applyUpdate (UQuality value) st.

(** ** What the component renders (lines 186-307)

    The upload area is rendered unconditionally; the other controls are
    guarded by the JSX conditions below. *)

Definition isSome {A} (o : option A) : bool :=
  match o with Some _ => true | None => false end.

(** line 223: [state.file && (...)] around the settings card. *)
Definition settingsShown (st : ConversionState) : bool := isSome (file st).

(** line 252: [state.file && state.status === 'idle' && (...)]. *)
Definition convertButtonShown (st : ConversionState) : bool :=
  isSome (file st) && status_eqb (status st) idle.

(** line 284: [state.status === 'completed' && state.pages.length > 0]. *)
Definition downloadButtonShown (st : ConversionState) : bool :=
  status_eqb (status st) completed && (0 <? List.length (pages st))%nat.

(** ** [convertPDFToImages] (lines 72-118)

    pdf.js and the canvas are outside the repository; the call sees them
    through two observations. *)

(** What one iteration of the page loop (lines 86-108) can do:
    - [Rendered d]: the context exists, [page.render] resolves and
      [canvas.toDataURL] returns [d];
    - [NoContext]: [canvas.getContext('2d')] is [null], the [if (context)]
      on line 94 is not entered and the iteration ends;
    - [Throws]: [pdf.getPage], [page.render] or [toDataURL] throws or
      rejects, control passes to the [catch] on line 113. *)
Inductive PageOutcome :=
| Rendered (imageData : string)
| NoContext
| Throws.

Record Pdfjs := mkPdfjs {
  (** [pdfjsLib.getDocument(await file.arrayBuffer()).promise]: [None] when
      either promise rejects, else [pdf.numPages]. *)
  numPages : File -> option nat;
  (** The loop body for page [pageNum] under the given settings. *)
  renderPage : File -> nat -> Settings -> PageOutcome
}.

(** Local variables of a call suspended in the loop (lines 81-85). *)
Record Locals := mkLocals {
  totalPages : nat;
  images : list string;
  settings : Settings;
  pageNum : nat
}.

(** A call of [convertPDFToImages] between two of its [await]s.  [state] is
    the render's state the closure captured, [f] its non-null [state.file]. *)
Inductive Call :=
| Loading (state : ConversionState) (f : File)   (* suspended on lines 79-80 *)
| Looping (f : File) (l : Locals)                (* at the loop head, line 85 *)
| Returned.

(** line 106: [(pageNum / totalPages) * 100]. *)
Definition progressAt (pageNum totalPages : nat) : Q :=
  (inject_Z (Z.of_nat pageNum) / inject_Z (Z.of_nat totalPages)) * 100.

(** Lines 73-76: the synchronous prefix of the call, run in the click. *)
Definition convertPDFToImages (state : ConversionState) : Call * option Update :=
  match file state with
  | None => (Returned, None)
  | Some f => (Loading state f, Some UStart)
  end.

(** One resumption of a suspended call: up to the next loop head or to the
    end of the function, with the [setState] it performs on the way. *)
Definition resume (env : Pdfjs) (c : Call) : Call * option Update :=
  match c with
  | Loading state f =>
      match numPages env f with
      | None => (Returned, Some UError)
      | Some total =>
          (Looping f (mkLocals total [] (qualitySettings (quality state)) 1), None)
      end
  | Looping f l =>
      if (pageNum l <=? totalPages l)%nat then
        match renderPage env f (pageNum l) (settings l) with
        | Rendered imageData =>
            let images' := images l ++ [imageData] in
            (Looping f (mkLocals (totalPages l) images' (settings l) (S (pageNum l))),
             Some (UPage (progressAt (pageNum l) (totalPages l)) images'))
        | NoContext =>
            (Looping f (mkLocals (totalPages l) (images l) (settings l) (S (pageNum l))),
             None)
        | Throws => (Returned, Some UError)
        end
      else (Returned, Some (UCompleted (images l)))
  | Returned => (Returned, None)
  end.

(** A call resumed [n] times with nothing else touching the store. *)
Fixpoint runFor (env : Pdfjs) (n : nat) (c : Call) (st : ConversionState)
  : Call * ConversionState :=
  match n with
  | O => (c, st)
  | S n' => let (c', u) := resume env c in runFor env n' c' (applyOpt u st)
  end.

(** A click on the convert button followed by [n] resumptions. *)
Definition convertRun (env : Pdfjs) (n : nat) (st : ConversionState)
  : Call * ConversionState :=
  let (c, u) := convertPDFToImages st in runFor env n c (applyOpt u st).

(** The updates a call enqueues over [n] resumptions, oldest first. *)
Fixpoint updatesFor (env : Pdfjs) (n : nat) (c : Call) : list Update :=
  match n with
  | O => []
  | S n' =>
      let (c', u) := resume env c in
      match u with
      | Some u => u :: updatesFor env n' c'
      | None => updatesFor env n' c'
      end
  end.

(** The values line 107 writes to [progress], in order. *)
Fixpoint progressWrites (us : list Update) : list Q :=
  match us with
  | [] => []
  | UPage p _ :: us' => p :: progressWrites us'
  | _ :: us' => progressWrites us'
  end.

(** The toasts a resumed call can raise; the success toast of line 112
    announces [totalPages] converted pages. *)
Inductive Toast :=
| Converted (totalPages : nat)      (* line 112 *)
| ConversionFailed.                 (* line 116 *)

(** The toast a resumption of [c] raises, if any. *)
Definition toastOnResume (env : Pdfjs) (c : Call) : option Toast :=
  match c with
  | Loading _ f =>
      match numPages env f with
      | None => Some ConversionFailed
      | Some _ => None
      end
  | Looping f l =>
      if (pageNum l <=? totalPages l)%nat then
        match renderPage env f (pageNum l) (settings l) with
        | Throws => Some ConversionFailed
        | _ => None
        end
      else Some (Converted (totalPages l))
  | Returned => None
  end.

(** The stores after each update of a list, starting from [st]. *)
Fixpoint snapshots (us : list Update) (st : ConversionState)
  : list ConversionState :=
  match us with
  | [] => []
  | u :: us' => applyUpdate u st :: snapshots us' (applyUpdate u st)
  end.

(** ** The component as an event-driven system

    Several calls may be in flight: the store is shared, each call keeps its
    own locals. *)

Record System := mkSystem { store : ConversionState; calls : list Call }.

Inductive Event :=
| FileSelected (f : option File)
| FilesDropped (files : list File)
| QualityChanged (q : Quality)
| ConvertClicked
| Resumed (i : nat).

Fixpoint resumeAt (env : Pdfjs) (i : nat) (cs : list Call)
  : list Call * option Update :=
  match cs, i with
  | [], _ => ([], None)
  | c :: cs', O => let (c', u) := resume env c in (c' :: cs', u)
  | c :: cs', S i' => let (cs'', u) := resumeAt env i' cs' in (c :: cs'', u)
  end.

(** A control that is not rendered cannot fire: its event leaves the system
    as it is. *)
Definition step (env : Pdfjs) (ev : Event) (s : System) : System :=
  match ev with
  | FileSelected f => mkSystem (handleFileSelect f (store s)) (calls s)
  | FilesDropped files => mkSystem (onDrop files (store s)) (calls s)
  | QualityChanged q =>
      if settingsShown (store s)
      then mkSystem (onValueChange q (store s)) (calls s)
      else s
  | ConvertClicked =>
      if convertButtonShown (store s)
      then let (c, u) := convertPDFToImages (store s) in
           mkSystem (applyOpt u (store s)) (calls s ++ [c])
      else s
  | Resumed i =>
      let (cs, u) := resumeAt env i (calls s) in
      mkSystem (applyOpt u (store s)) cs
  end.

Definition exec (env : Pdfjs) (evs : list Event) (s : System) : System :=
  fold_left (fun s ev => step env ev s) evs s.

Definition callImages (c : Call) : list string :=
  match c with
  | Looping _ l => images l
  | _ => []
  end.

(** ** [downloadImagePDF] (lines 120-171) *)

(** A rectangle [x, y, width, height] in exact arithmetic. *)
Record Placement := mkPlacement { x : Q; y : Q; width : Q; height : Q }.

(** [a > b] on numbers. *)
Definition Qgtb (a b : Q) : bool := negb (Qle_bool a b).

(** The formulas of [img.onload], lines 140-156, in exact arithmetic: what
    they give when no operation rounds.  The code computes in doubles, see
    [placeImage64]. *)
Definition placeImage (imgWidth imgHeight pdfWidth pdfHeight : Q) : Placement :=
  let imgAspectRatio := imgWidth / imgHeight in
  let pdfAspectRatio := pdfWidth / pdfHeight in
  let (w, h) :=
    if Qgtb imgAspectRatio pdfAspectRatio
    then (pdfWidth, pdfWidth / imgAspectRatio)
    else (pdfHeight * imgAspectRatio, pdfHeight) in
  mkPlacement ((pdfWidth - w) / 2) ((pdfHeight - h) / 2) w h.

(** The rectangle handed to [pdf.addImage] on line 158: four doubles. *)
Record Rect := mkRect {
  rectX : PrimFloat.float;
  rectY : PrimFloat.float;
  rectWidth : PrimFloat.float;
  rectHeight : PrimFloat.float
}.

(** The body of [img.onload], lines 140-156, as the code computes it: every
    number is a binary64 double, every operation the IEEE one, and [a > b]
    is false when either side is NaN. *)
Definition placeImage64 (imgWidth imgHeight pdfWidth pdfHeight : PrimFloat.float)
  : Rect :=
  let imgAspectRatio := (imgWidth / imgHeight)%float in
  let pdfAspectRatio := (pdfWidth / pdfHeight)%float in
  let (width, height) :=
    if (pdfAspectRatio <? imgAspectRatio)%float
    then (pdfWidth, (pdfWidth / imgAspectRatio)%float)
    else ((pdfHeight * imgAspectRatio)%float, pdfHeight) in
  mkRect ((pdfWidth - width) / 2)%float ((pdfHeight - height) / 2)%float
         width height.


(** [s.replace(pat, repl)] for a string pattern and a replacement without
    [$]: the first occurrence of [pat] in [s] is replaced, a string without
    an occurrence is returned as it is.  Strings are compared unit by unit,
    here byte by byte. *)
Fixpoint replaceFirst (pat repl s : string) : string :=
  if String.prefix pat s
  then (repl ++ String.substring (String.length pat)
                  (String.length s - String.length pat) s)%string
  else match s with
       | EmptyString => EmptyString
       | String c s' => String c (replaceFirst pat repl s')
       end.

(** line 164: [state.file?.name.replace('.pdf', '_image-only.pdf')
    || 'converted_image-only.pdf']; the empty string is falsy. *)
Definition fileName (st : ConversionState) : string :=
  match file st with
  | Some f =>
      match replaceFirst ".pdf" "_image-only.pdf" (name f) with
      | EmptyString => "converted_image-only.pdf"
      | r => r
      end
  | None => "converted_image-only.pdf"
  end.

(** jsPDF and the [Image] element, outside the repository. *)
Record JsPdf := mkJsPdf {
  (** [pdf.internal.pageSize.getWidth()] and [getHeight()]. *)
  pdfWidth : PrimFloat.float;
  pdfHeight : PrimFloat.float;
  (** [img.width] and [img.height] when [onload] fires; [None] when it
      never does. *)
  imageSize : string -> option (PrimFloat.float * PrimFloat.float);
  (** whether the handler of [img.onload] runs to [resolve], that is
      whether [pdf.addImage(imgData, 'JPEG', x, y, width, height)] of line
      158, like the page-size getters before it, returns normally; when
      one of them throws, inside the handler, [resolve] is not reached. *)
  addImage : string -> Rect -> bool;
  (** whether [pdf.save(fileName)] returns normally. *)
  saves : string -> bool
}.

Record OutputPage := mkOutputPage { image : string; rect : Rect }.

(** The loop of lines 128-162: one output page per raster page.  [None]
    when the promise of line 138 is never resolved, the image never loading
    or [addImage] throwing in the handler: the call then stays suspended on
    that page and the later pages are not reached. *)
Fixpoint placePages (env : JsPdf) (ps : list string) : option (list OutputPage) :=
  match ps with
  | [] => Some []
  | imgData :: rest =>
      match imageSize env imgData with
      | None => None
      | Some (w, h) =>
          let r := placeImage64 w h (pdfWidth env) (pdfHeight env) in
          if addImage env imgData r then
            match placePages env rest with
            | None => None
            | Some doc => Some (mkOutputPage imgData r :: doc)
            end
          else None
      end
  end.

Inductive DownloadResult :=
| NothingDone                                          (* return of line 121 *)
| Saved (fileName : string) (doc : list OutputPage)    (* lines 165-166 *)
| Failed                                               (* catch, lines 167-170 *)
| Pending.                                             (* an await never resumes *)

Definition downloadImagePDF (env : JsPdf) (st : ConversionState) : DownloadResult :=
  if (List.length (pages st) =? 0)%nat then NothingDone
  else match placePages env (pages st) with
       | None => Pending
       | Some doc =>
           if saves env (fileName st) then Saved (fileName st) doc else Failed
       end.

(** The only error report of [downloadImagePDF] is the [toast.error] of its
    [catch]. *)
Definition reportsError (r : DownloadResult) : bool :=
  match r with
  | Failed => true
  | _ => false
  end.

(** Sample inputs used by the examples below. *)

Definition pdfA : File := mkFile "a.pdf" "application/pdf".
Definition pdfB : File := mkFile "b.pdf" "application/pdf".

(** A session in the middle of a run over [pdfA]: one page of two done. *)
Definition midRun : ConversionState :=
  mkState (Some pdfA) ["data:page1"] 50 processing high.

(** Scripted stand-ins for pdf.js: a document of [n] pages whose page [k]
    behaves as [outcome k]. *)
Definition scripted (n : nat) (outcome : nat -> PageOutcome) : Pdfjs :=
  mkPdfjs (fun _ => Some n) (fun _ k _ => outcome k).

Definition pageData (k : nat) : string :=
  ("data:page" ++ String (ascii_of_nat (48 + k)) EmptyString)%string.

Definition allRendered (k : nat) : PageOutcome := Rendered (pageData k).

Definition noContextAt (j k : nat) : PageOutcome :=
  if (k =? j)%nat then NoContext else Rendered (pageData k).

Definition throwsAt (j k : nat) : PageOutcome :=
  if (k =? j)%nat then Throws else Rendered (pageData k).

(** A stand-in for jsPDF: an A4 page in millimetres, every image decoding
    to 1600 by 1000 pixels, [save] succeeding. *)
Definition a4 : JsPdf :=
  mkJsPdf 210%float 297%float (fun _ => Some (1600, 1000)%float)
          (fun _ _ => true) (fun _ => true).

(** [pat] has no occurrence in [base ++ rest] that starts inside [base]. *)
Fixpoint noEarlierMatch (pat base rest : string) : bool :=
  match base with
  | EmptyString => true
  | String c b =>
      negb (String.prefix pat (String c b ++ rest)%string)
      && noEarlierMatch pat b rest
  end.

(** A finished session over a file whose name holds [.pdf] twice. *)
Definition signedDraft : ConversionState :=
  mkState (Some (mkFile "draft.pdf.signed.pdf" "application/pdf"))
          ["data:page1"] 100 completed high.

(** A loaded, idle session over [pdfA]: the convert button is shown. *)
Definition loaded : ConversionState := mkState (Some pdfA) [] 0 idle high.

(** A stand-in for pdf.js whose raster pages depend on the settings they
    are rendered with: the data URL names the page and the scale. *)
Definition scaleTag (s : Settings) : string :=
  if Qeq_bool (scale s) 2 then "@2x"
  else if Qeq_bool (scale s) (3 # 2) then "@1.5x" else "@1x".

Definition scaled (n : nat) : Pdfjs :=
  mkPdfjs (fun _ => Some n)
          (fun _ k s => Rendered (pageData k ++ scaleTag s)%string).

(** ** Predicates the properties are stated with *)

(** [qs] never decreases and starts at [lo] or above. *)
Fixpoint nondecreasingFrom (lo : Q) (qs : list Q) : Prop :=
  match qs with
  | [] => True
  | q :: qs' => lo <= q /\ nondecreasingFrom q qs'
  end.

(** What holds of a call over an [N]-page document and the store it alone
    writes to. *)
Definition runInv (env : Pdfjs) (N : nat) (c : Call) (st : ConversionState)
  : Prop :=
  (List.length (pages st) <= N)%nat /\
  match c with
  | Loading _ f => numPages env f = Some N /\ pages st = []
  | Looping _ l =>
      totalPages l = N /\ pages st = images l /\
      (List.length (images l) < pageNum l <= S N)%nat
  | Returned => True
  end.

(** The settings of a call are those of the tier [q]. *)
Definition callQuality (q : Quality) (c : Call) : Prop :=
  match c with
  | Loading state _ => quality state = q
  | Looping _ l => settings l = qualitySettings q
  | Returned => True
  end.

(** Two stores that differ at most in [quality]. *)
Definition sameButQuality (a b : ConversionState) : Prop :=
  file a = file b /\ pages a = pages b /\
  progress a = progress b /\ status a = status b.

(** Events of a session in which, after the click, only the quality is
    changed while the one call in flight is resumed. *)
Definition qualityOrResume (ev : Event) : bool :=
  match ev with
  | QualityChanged _ => true
  | Resumed O => true
  | _ => false
  end.

Fixpoint resumes (evs : list Event) : nat :=
  match evs with
  | [] => O
  | Resumed _ :: evs' => S (resumes evs')
  | _ :: evs' => resumes evs'
  end.

(** ** The progress card and further vocabulary *)

(** line 266: [state.status === 'processing' && (...)]. *)
Definition progressShown (st : ConversionState) : bool :=
  status_eqb (status st) processing.

(** line 277: [Math.ceil(state.progress / 100 * (state.pages.length + 1))],
    the page number of the line "Processing page ... of your PDF". *)
Definition processingPageShown (st : ConversionState) : Z :=
  Qceiling (progress st / 100
            * inject_Z (Z.of_nat (List.length (pages st) + 1))).

(** line 272: [Math.round(state.progress)], halves rounded up. *)
Definition percentShown (st : ConversionState) : Z :=
  Qfloor (progress st + (1 # 2)).

(** A progress value of the bar. *)
Definition inRange (p : Q) : Prop := 0 <= p /\ p <= 100.

(** The run is over. *)
Definition finished (st : ConversionState) : Prop :=
  status st = completed \/ status st = error.

(** Resumptions after which a call over [f] has returned. *)
Definition runBound (env : Pdfjs) (f : File) : nat :=
  match numPages env f with
  | Some n => n + 2
  | None => 1
  end.

(** The images of the pages [k, k + m) that get a rendering context, in
    page order; the loop is assumed not to throw on them. *)
Fixpoint renderedImages (env : Pdfjs) (f : File) (s : Settings) (k m : nat)
  : list string :=
  match m with
  | O => []
  | S m' =>
      match renderPage env f k s with
      | Rendered d => d :: renderedImages env f s (S k) m'
      | _ => renderedImages env f s (S k) m'
      end
  end.

(** Events that start no call and resume only the first one. *)
Definition withoutClick (ev : Event) : bool :=
  match ev with
  | ConvertClicked => false
  | Resumed (S _) => false
  | _ => true
  end.

(** The event is the resumption of a call. *)
Definition isResumed (ev : Event) : bool :=
  match ev with
  | Resumed _ => true
  | _ => false
  end.

(** The component after mounting. *)
Definition mounted : System := mkSystem initialState [].

(** A stand-in for pdf.js whose pages name the file they come from. *)
Definition named (n : nat) : Pdfjs :=
  mkPdfjs (fun _ => Some n)
          (fun f k _ => Rendered (name f ++ pageData k)%string).

(** A document pdf.js cannot open. *)
Definition unreadable : Pdfjs :=
  mkPdfjs (fun _ => None) (fun _ _ _ => Throws).

(** A stand-in for jsPDF in which the image of page 2 never loads. *)
Definition brokenImage : JsPdf :=
  mkJsPdf 210%float 297%float
          (fun d => if String.eqb d "data:page2" then None
                    else Some (1600, 1000)%float)
          (fun _ _ => true) (fun _ => true).

(** The handler of [img.onload] runs to [resolve] for every raster page:
    the image loads and [addImage] takes it at the rectangle computed for
    its size. *)
Definition addsAll (env : JsPdf) (ps : list string) : Prop :=
  forall d, In d ps ->
    exists w h,
      imageSize env d = Some (w, h) /\
      addImage env d (placeImage64 w h (pdfWidth env) (pdfHeight env)) = true.

(** The output page carries the rectangle computed for its image's size. *)
Definition placedBy (env : JsPdf) (p : OutputPage) : Prop :=
  exists w h,
    imageSize env (image p) = Some (w, h) /\
    rect p = placeImage64 w h (pdfWidth env) (pdfHeight env).

(** A call started on [f] renders with the settings [s]: what it holds are
    the images that the pages before [pageNum] give under [s]. *)
Definition callRendersWith (env : Pdfjs) (f : File) (s : Settings) (c : Call)
  : Prop :=
  match c with
  | Loading state f' => f' = f /\ qualitySettings (quality state) = s
  | Looping f' l =>
      f' = f /\ settings l = s /\ (1 <= pageNum l)%nat /\
      images l = renderedImages env f s 1 (pageNum l - 1)
  | Returned => True
  end.

(** A file that is not a PDF. *)
Definition notesTxt : File := mkFile "notes.txt" "text/plain".

(** * Properties *)

(** ** Loading a source *)

(** What the store holds after a successful load of [f]. *)
Lemma applyUpdate_ULoad f st :
  applyUpdate (ULoad f) st = mkState (Some f) [] 0 idle (quality st).
Proof. reflexivity. Qed.

(** C7, as stated, fails: a PDF chosen while the status is [processing] is
    not rejected; the store takes the new file and goes back to [idle]. *)
Lemma load_while_processing_accepted :
  status midRun = processing /\
  handleFileSelect (Some pdfB) midRun <> midRun /\
  handleFileSelect (Some pdfB) midRun = mkState (Some pdfB) [] 0 idle high /\
  onDrop [pdfB] midRun = mkState (Some pdfB) [] 0 idle high.
Proof.
  repeat split; try reflexivity.
  unfold midRun; cbn; discriminate.
Qed.

(** C7 (amended): in every status, [processing] included, loading a PDF
    through the file input or by a drop succeeds and resets the session to
    [pages = []], [progress = 0], [status = idle], keeping the quality; a
    selection that is not a PDF, an empty selection and a drop without a
    PDF are rejected in every status and leave the session as it is. *)
Theorem load_resets_in_every_status (st : ConversionState) (f g : File) :
  isPdf f = true ->
  isPdf g = false ->
  handleFileSelect (Some f) st = mkState (Some f) [] 0 idle (quality st) /\
  (forall files, find isPdf files = Some f ->
     onDrop files st = mkState (Some f) [] 0 idle (quality st)) /\
  handleFileSelect (Some g) st = st /\
  handleFileSelect None st = st /\
  (forall files, find isPdf files = None -> onDrop files st = st).
Proof.
  intros Hpdf Hnot. repeat split.
  - unfold handleFileSelect; now rewrite Hpdf.
  - intros files Hfind; unfold onDrop; now rewrite Hfind.
  - unfold handleFileSelect; now rewrite Hnot.
  - intros files Hfind; unfold onDrop; now rewrite Hfind.
Qed.

Lemma load_resets_in_every_status_witness :
  handleFileSelect (Some pdfB) midRun = mkState (Some pdfB) [] 0 idle high /\
  (forall files, find isPdf files = Some pdfB ->
     onDrop files midRun = mkState (Some pdfB) [] 0 idle high) /\
  handleFileSelect (Some notesTxt) midRun = midRun /\
  handleFileSelect None midRun = midRun /\
  (forall files, find isPdf files = None -> onDrop files midRun = midRun).
Proof.
  apply (load_resets_in_every_status midRun pdfB notesTxt); reflexivity.
Defined.

(** A file that is not a PDF leaves the session as it is. *)
Lemma non_pdf_ignored st f :
  isPdf f = false -> handleFileSelect (Some f) st = st.
Proof. intros H; unfold handleFileSelect; now rewrite H. Qed.

(** ** Changing the quality *)

(** C9, as stated, fails: a quality change made while the status is
    [processing] is applied to the store, the settings card being shown
    whenever a file is loaded. *)
Lemma quality_change_while_processing_applied :
  status midRun = processing /\
  settingsShown midRun = true /\
  store (step (scripted 2 allRendered) (QualityChanged low) (mkSystem midRun []))
    <> midRun /\
  quality (store (step (scripted 2 allRendered) (QualityChanged low)
                       (mkSystem midRun []))) = low.
Proof.
  repeat split; try reflexivity.
  cbn; discriminate.
Qed.

(** C9 (amended): whenever a file is loaded, in every status, a quality
    change is applied: the store takes the new tier and nothing else of the
    session, nor any call in flight, changes. *)
Theorem quality_change_applied_in_every_status
  (env : Pdfjs) (s : System) (f : File) (q : Quality) :
  file (store s) = Some f ->
  step env (QualityChanged q) s =
  mkSystem (mkState (Some f) (pages (store s)) (progress (store s))
                    (status (store s)) q)
           (calls s).
Proof.
  intros Hf; unfold step, settingsShown, onValueChange; rewrite Hf; cbn.
  now rewrite Hf.
Qed.

Lemma quality_change_applied_in_every_status_witness :
  step (scripted 2 allRendered) (QualityChanged low) (mkSystem midRun []) =
  mkSystem (mkState (Some pdfA) ["data:page1"] 50 processing low) [].
Proof.
  apply (quality_change_applied_in_every_status
           (scripted 2 allRendered) (mkSystem midRun []) pdfA low).
  reflexivity.
Defined.

(** ** Starting a conversion twice *)

(** C4: while the status is [processing] a second conversion cannot be
    started: the convert button, the one place the component calls
    [convertPDFToImages] from, is not rendered, so that an attempt, however
    often repeated, is a no-op: no call is added to the one in flight and
    the store, [pages] included, is left as it is. *)
Theorem convert_while_processing_is_noop (env : Pdfjs) (s : System) (n : nat) :
  status (store s) = processing ->
  convertButtonShown (store s) = false /\
  step env ConvertClicked s = s /\
  exec env (repeat ConvertClicked n) s = s.
Proof.
  intros Hst.
  assert (Hshown : convertButtonShown (store s) = false).
  { unfold convertButtonShown; rewrite Hst; cbn. apply andb_false_r. }
  assert (Hstep : step env ConvertClicked s = s).
  { cbn; now rewrite Hshown. }
  repeat split; trivial.
  induction n as [|n IH]; [reflexivity|].
  cbn [repeat]. unfold exec in *. cbn [fold_left]. now rewrite Hstep.
Qed.

Lemma convert_while_processing_is_noop_witness :
  convertButtonShown midRun = false /\
  step (scripted 2 allRendered) ConvertClicked
       (mkSystem midRun [Looping pdfA (mkLocals 2 ["data:page1"]
                                                (qualitySettings high) 2)])
    = mkSystem midRun [Looping pdfA (mkLocals 2 ["data:page1"]
                                              (qualitySettings high) 2)] /\
  exec (scripted 2 allRendered) (repeat ConvertClicked 3)
       (mkSystem midRun [Looping pdfA (mkLocals 2 ["data:page1"]
                                                (qualitySettings high) 2)])
    = mkSystem midRun [Looping pdfA (mkLocals 2 ["data:page1"]
                                              (qualitySettings high) 2)].
Proof.
  apply (convert_while_processing_is_noop (scripted 2 allRendered)
           (mkSystem midRun [Looping pdfA (mkLocals 2 ["data:page1"]
                                                    (qualitySettings high) 2)])
           3).
  reflexivity.
Defined.

(** Without a file the call returns at once and enqueues nothing. *)
Lemma convert_without_file st :
  file st = None -> convertPDFToImages st = (Returned, None).
Proof. intros H; unfold convertPDFToImages; now rewrite H. Qed.

(** ** Assembling nothing *)

(** C3, as stated, fails: with no raster page [downloadImagePDF] returns on
    line 121 before anything else; no error is reported. *)
Lemma download_empty_reports_no_error :
  pages (mkState (Some pdfA) [] 0 idle high) = [] /\
  downloadImagePDF a4 (mkState (Some pdfA) [] 0 idle high) = NothingDone /\
  reportsError (downloadImagePDF a4 (mkState (Some pdfA) [] 0 idle high)) = false.
Proof. repeat split. Qed.

(** C3 (amended): with an empty [pages] the call is a silent no-op: it
    produces no document and reports no error, whatever jsPDF would do; and
    the download button is not rendered in such a session. *)
Theorem download_empty_is_noop (env : JsPdf) (st : ConversionState) :
  pages st = [] ->
  downloadImagePDF env st = NothingDone /\
  reportsError (downloadImagePDF env st) = false /\
  downloadButtonShown st = false.
Proof.
  intros Hp; unfold downloadImagePDF, downloadButtonShown; rewrite Hp; cbn.
  repeat split. apply andb_false_r.
Qed.

Lemma download_empty_is_noop_witness :
  downloadImagePDF a4 initialState = NothingDone /\
  reportsError (downloadImagePDF a4 initialState) = false /\
  downloadButtonShown initialState = false.
Proof. apply (download_empty_is_noop a4 initialState); reflexivity. Defined.

(** With raster pages, decodable images and a working [save], the output
    has one page per raster page, in order. *)
Lemma placePages_images env ps doc :
  placePages env ps = Some doc -> map image doc = ps.
Proof.
  revert doc; induction ps as [|d ps IH]; intros doc H; cbn in H.
  - now inversion H.
  - destruct (imageSize env d) as [[w h]|]; try discriminate.
    destruct (addImage env d _); try discriminate.
    destruct (placePages env ps) as [doc'|]; try discriminate.
    inversion H; subst; cbn. now rewrite (IH doc' eq_refl).
Qed.

(** ** Aspect-fit placement *)

Lemma Qpos_neq0 (a : Q) : 0 < a -> ~ a == 0.
Proof. intros Ha E. rewrite E in Ha. now apply Qlt_irrefl in Ha. Qed.

(** Comparing two quotients of positive denominators by cross products. *)
Lemma Qdiv_lt_cross (a b c d : Q) :
  0 < b -> 0 < d -> (a / b < c / d <-> a * d < c * b).
Proof.
  intros Hb Hd.
  rewrite <- (Qmult_lt_r (a / b) (c / d) (b * d)) by now apply Qmult_lt_0_compat.
  setoid_replace (a / b * (b * d)) with (a * d) by (field; now apply Qpos_neq0).
  setoid_replace (c / d * (b * d)) with (c * b) by (field; now apply Qpos_neq0).
  reflexivity.
Qed.

Lemma Qdiv_le_cross (a b c d : Q) :
  0 < b -> 0 < d -> (a / b <= c / d <-> a * d <= c * b).
Proof.
  intros Hb Hd.
  rewrite <- (Qmult_le_r (a / b) (c / d) (b * d)) by now apply Qmult_lt_0_compat.
  setoid_replace (a / b * (b * d)) with (a * d) by (field; now apply Qpos_neq0).
  setoid_replace (c / d * (b * d)) with (c * b) by (field; now apply Qpos_neq0).
  reflexivity.
Qed.

Lemma Qgtb_true (a b : Q) : Qgtb a b = true <-> b < a.
Proof.
  unfold Qgtb; rewrite negb_true_iff; split; intros H.
  - apply Qnot_le_lt; intros Hle. apply Qle_bool_iff in Hle. congruence.
  - destruct (Qle_bool a b) eqn:E; trivial.
    apply Qle_bool_iff in E. now apply Qlt_not_le in H.
Qed.

Lemma Qgtb_false (a b : Q) : Qgtb a b = false <-> a <= b.
Proof.
  unfold Qgtb; rewrite negb_false_iff. apply Qle_bool_iff.
Qed.

(** In exact arithmetic, for positive image and page dimensions, the
    rectangle of the two branch formulas is centred, has the image's aspect
    ratio and exceeds neither page dimension. *)
Lemma placeImage_exact_fit (iw ih pw ph : Q) :
  0 < iw -> 0 < ih -> 0 < pw -> 0 < ph ->
  let p := placeImage iw ih pw ph in
  (pw / ph < iw / ih -> width p == pw /\ height p == pw / (iw / ih)) /\
  (~ pw / ph < iw / ih -> height p == ph /\ width p == ph * (iw / ih)) /\
  x p == (pw - width p) / 2 /\
  y p == (ph - height p) / 2 /\
  width p / height p == iw / ih /\
  width p <= pw /\
  height p <= ph.
Proof.
  intros Hiw Hih Hpw Hph p; subst p; unfold placeImage.
  pose proof (Qpos_neq0 _ Hiw) as Niw. pose proof (Qpos_neq0 _ Hih) as Nih.
  pose proof (Qpos_neq0 _ Hpw) as Npw. pose proof (Qpos_neq0 _ Hph) as Nph.
  destruct (Qgtb (iw / ih) (pw / ph)) eqn:E; cbn [x y width height];
    refine (conj _ (conj _ (conj _ (conj _ (conj _ (conj _ _))))));
    try reflexivity.
  - apply Qgtb_true in E. intros _; split; reflexivity.
  - apply Qgtb_true in E. intros Hn; contradiction.
  - field; repeat split; assumption.
  - apply Qle_refl.
  - apply Qgtb_true in E.
    apply (proj1 (Qdiv_lt_cross pw ph iw ih Hph Hih)) in E.
    setoid_replace (pw / (iw / ih)) with ((pw * ih) / iw)
      by (field; split; assumption).
    apply Qle_shift_div_r; trivial.
    rewrite (Qmult_comm ph iw). now apply Qlt_le_weak.
  - apply Qgtb_false in E. intros Hlt. now apply Qlt_not_le in Hlt.
  - intros _; split; reflexivity.
  - field; split; assumption.
  - apply Qgtb_false in E.
    apply (proj1 (Qdiv_le_cross iw ih pw ph Hih Hph)) in E.
    setoid_replace (ph * (iw / ih)) with ((iw * ph) / ih) by (field; assumption).
    apply Qle_shift_div_r; trivial.
  - apply Qle_refl.
Qed.

(** The 1600 by 1000 image of the specification's example on a 600 by 800
    page: the width-constrained branch, 600 wide and 375 high. *)
Example placeImage_spec_example :
  width (placeImage 1600 1000 600 800) == 600 /\
  height (placeImage 1600 1000 600 800) == 375 /\
  x (placeImage 1600 1000 600 800) == 0 /\
  y (placeImage 1600 1000 600 800) == 425 # 2.
Proof. repeat split. Qed.

(** ** Placement as computed, in doubles *)







(** ** The output file name *)

Lemma substring_tail (s : string) :
  String.substring (String.length s) 0 s = EmptyString.
Proof. induction s as [|c s IH]; cbn; trivial. Qed.

Lemma append_empty_r (s : string) : (s ++ EmptyString)%string = s.
Proof. induction s as [|c s IH]; cbn; congruence. Qed.

Lemma replaceFirst_unfold (pat repl s : string) :
  replaceFirst pat repl s =
  if String.prefix pat s
  then (repl ++ String.substring (String.length pat)
                  (String.length s - String.length pat) s)%string
  else match s with
       | EmptyString => EmptyString
       | String c s' => String c (replaceFirst pat repl s')
       end.
Proof. destruct s; reflexivity. Qed.

Lemma prefix_refl (s : string) : String.prefix s s = true.
Proof. induction s as [|c s IH]; cbn; trivial. now destruct (ascii_dec c c). Qed.

(** When the [.pdf] at the end of the name is its first occurrence, it is
    the one replaced. *)
Lemma replaceFirst_suffix (pat repl base : string) :
  noEarlierMatch pat base pat = true ->
  replaceFirst pat repl (base ++ pat)%string = (base ++ repl)%string.
Proof.
  induction base as [|c b IH]; intros H.
  - cbn [append]. rewrite replaceFirst_unfold, prefix_refl.
    rewrite Nat.sub_diag, substring_tail. apply append_empty_r.
  - cbn [noEarlierMatch] in H. apply andb_true_iff in H as [Hc Hb].
    apply negb_true_iff in Hc.
    rewrite replaceFirst_unfold, Hc. cbn [append]. now rewrite IH.
Qed.

(** X18: for such names the output name is the source name with its suffix
    replaced. *)
Lemma fileName_suffix (st : ConversionState) (f : File) (base : string) :
  file st = Some f ->
  name f = (base ++ ".pdf")%string ->
  noEarlierMatch ".pdf" base ".pdf" = true ->
  fileName st = (base ++ "_image-only.pdf")%string.
Proof.
  intros Hf Hn Hm. unfold fileName. rewrite Hf, Hn, replaceFirst_suffix by trivial.
  destruct base; reflexivity.
Qed.

Example fileName_plain :
  fileName (mkState (Some (mkFile "report.pdf" "application/pdf")) [] 0 idle high)
  = "report_image-only.pdf".
Proof. reflexivity. Qed.

Lemma fileName_fallback st : file st = None -> fileName st = "converted_image-only.pdf".
Proof. intros H; unfold fileName; now rewrite H. Qed.

(** C8 fails on the code: [String.prototype.replace] with a string pattern
    replaces the first occurrence of [.pdf], not the suffix.  For
    [draft.pdf.signed.pdf] the saved document is named
    [draft_image-only.pdf.signed.pdf]; replacing the suffix would give
    [draft.pdf.signed_image-only.pdf]. *)
Theorem fileName_replaces_first_occurrence :
  fileName signedDraft = "draft_image-only.pdf.signed.pdf" /\
  fileName signedDraft <> "draft.pdf.signed_image-only.pdf".
Proof. split; [reflexivity | cbn; discriminate]. Qed.

(** ** A run on its own *)

Lemma runFor_plus env a b c st :
  runFor env (a + b) c st =
  let (c', st') := runFor env a c st in runFor env b c' st'.
Proof.
  revert c st; induction a as [|a IH]; intros c st; cbn; trivial.
  destruct (resume env c) as [c1 u]. apply IH.
Qed.

(** A returned call stays returned and touches nothing: no retry. *)
Lemma runFor_Returned env n st : runFor env n Returned st = (Returned, st).
Proof. induction n as [|n IH]; cbn; trivial. Qed.

Lemma updatesFor_Returned env n : updatesFor env n Returned = [].
Proof. induction n as [|n IH]; cbn; trivial. Qed.

(** [m + 1] consecutive pages render: the call stands at the loop head
    behind them, the store holds their images and the last progress. *)
Lemma loop_rendered env f (d : nat -> string) N s m :
  forall imgs k st,
    (forall j, (k <= j < k + S m)%nat -> renderPage env f j s = Rendered (d j)) ->
    (k + S m <= S N)%nat ->
    runFor env (S m) (Looping f (mkLocals N imgs s k)) st =
    (Looping f (mkLocals N (imgs ++ map d (seq k (S m))) s (k + S m)),
     mkState (file st) (imgs ++ map d (seq k (S m))) (progressAt (k + m) N)
             (status st) (quality st)).
Proof.
  induction m as [|m IH]; intros imgs k st Hr Hk.
  - cbn [runFor resume pageNum totalPages settings images].
    replace (k <=? N)%nat with true by (symmetry; apply Nat.leb_le; lia).
    rewrite (Hr k) by lia. cbn.
    now rewrite Nat.add_0_r, Nat.add_1_r.
  - change (runFor env (S (S m)) (Looping f (mkLocals N imgs s k)) st)
      with (let (c', u) := resume env (Looping f (mkLocals N imgs s k)) in
            runFor env (S m) c' (applyOpt u st)).
    cbn [resume pageNum totalPages settings images].
    replace (k <=? N)%nat with true by (symmetry; apply Nat.leb_le; lia).
    rewrite (Hr k) by lia.
    rewrite (IH (imgs ++ [d k]) (S k)); [| intros j Hj; apply Hr; lia | lia].
    cbn [applyOpt applyUpdate file status quality].
    rewrite <- app_assoc. cbn [app].
    change (d k :: map d (seq (S k) (S m))) with (map d (seq k (S (S m)))).
    replace (S k + S m)%nat with (k + S (S m))%nat by lia.
    replace (S k + m)%nat with (k + S m)%nat by lia.
    reflexivity.
Qed.

Lemma progressAt_full N : (1 <= N)%nat -> progressAt N N == 100.
Proof.
  intros HN. unfold progressAt. field.
  intros E. apply (Qpos_neq0 (inject_Z (Z.of_nat N))); trivial.
  unfold Qlt; cbn. lia.
Qed.

(** [(k / N) * 100] is the specification's [100 * k / N]. *)
Lemma progressAt_spec k N :
  (1 <= N)%nat ->
  progressAt k N == 100 * inject_Z (Z.of_nat k) / inject_Z (Z.of_nat N).
Proof.
  intros HN. unfold progressAt. field.
  intros E. apply (Qpos_neq0 (inject_Z (Z.of_nat N))); trivial.
  unfold Qlt; cbn. lia.
Qed.

Lemma progressAt_mono j k N : (j <= k)%nat -> progressAt j N <= progressAt k N.
Proof.
  intros Hjk. unfold progressAt, Qdiv.
  apply Qmult_le_compat_r; [| discriminate].
  apply Qmult_le_compat_r.
  - unfold Qle; cbn. lia.
  - apply Qinv_le_0_compat. unfold Qle; cbn. lia.
Qed.

(** When every page of an [N]-page document renders, the run started by a
    click returns after [N + 2] resumptions with [N] pages in source order,
    progress [(N / N) * 100] and status [completed]. *)
Theorem all_rendered_completes env st f N (d : nat -> string) :
  file st = Some f ->
  numPages env f = Some N ->
  (1 <= N)%nat ->
  (forall j, (1 <= j <= N)%nat ->
     renderPage env f j (qualitySettings (quality st)) = Rendered (d j)) ->
  convertRun env (N + 2) st =
  (Returned,
   mkState (Some f) (map d (seq 1 N)) (progressAt N N) completed (quality st)).
Proof.
  intros Hf HN Hpos Hr. unfold convertRun, convertPDFToImages. rewrite Hf.
  replace (N + 2)%nat with (1 + (N + 1))%nat by lia.
  rewrite runFor_plus.
  cbn [runFor resume]. rewrite HN. cbn [applyOpt].
  rewrite runFor_plus.
  destruct N as [|m]; [lia|].
  rewrite (loop_rendered env f d (S m) _ m [] 1);
    [| intros j Hj; apply Hr; lia | lia].
  cbn [runFor resume pageNum totalPages images app].
  replace (1 + S m <=? S m)%nat with false by (symmetry; apply Nat.leb_gt; lia).
  cbn. now rewrite Hf.
Qed.

Example all_rendered_two_pages :
  convertRun (scripted 2 allRendered) 4 loaded =
  (Returned,
   mkState (Some pdfA) ["data:page1"; "data:page2"] (progressAt 2 2)
           completed high).
Proof.
  apply (all_rendered_completes (scripted 2 allRendered) loaded pdfA 2 pageData);
    try reflexivity; lia.
Qed.

(** During a run over an [N]-page document the store never holds more than
    [N] pages. *)
Lemma resume_runInv env N c st :
  runInv env N c st ->
  runInv env N (fst (resume env c)) (applyOpt (snd (resume env c)) st).
Proof.
  intros [Hlen Hc]. destruct c as [s f | f l |]; cbn [resume].
  - destruct Hc as [HN Hp]. rewrite HN.
    unfold runInv; cbn. repeat split; trivial; lia.
  - destruct Hc as [HN [Hp Hk]].
    destruct (pageNum l <=? totalPages l)%nat eqn:E.
    + apply Nat.leb_le in E.
      destruct (renderPage env f (pageNum l) (settings l));
        unfold runInv; cbn.
      * rewrite length_app; cbn. repeat split; trivial; lia.
      * repeat split; trivial; lia.
      * split; trivial.
    + apply Nat.leb_gt in E. unfold runInv; cbn. split; trivial. lia.
  - unfold runInv; cbn. split; trivial.
Qed.

Lemma runFor_runInv env N n : forall c st,
  runInv env N c st ->
  runInv env N (fst (runFor env n c st)) (snd (runFor env n c st)).
Proof.
  induction n as [|n IH]; intros c st H; cbn; trivial.
  pose proof (resume_runInv env N c st H) as H1.
  destruct (resume env c) as [c1 u]. now apply IH.
Qed.

(** X2: for a call alone on the store, that is with no load, no quality
    change and no other call between its resumptions, over an [N]-page
    document: after any number of resumptions and whatever the pages do,
    the store never holds more than [N] pages. *)
Theorem pages_never_exceed_page_count env st f N n :
  file st = Some f ->
  numPages env f = Some N ->
  (List.length (pages (snd (convertRun env n st))) <= N)%nat.
Proof.
  intros Hf HN. unfold convertRun, convertPDFToImages. rewrite Hf.
  apply (runFor_runInv env N n (Loading st f)).
  split; [cbn; lia | cbn; split; trivial].
Qed.

(** When page [j] throws after [j - 1] rendered pages the run ends there
    with status [error]; the pages rendered so far stay in the store, no
    later page is rendered and further resumptions change nothing. *)
Theorem throw_aborts_run env st f N (d : nat -> string) j n :
  file st = Some f ->
  numPages env f = Some N ->
  (1 <= j <= N)%nat ->
  (forall i, (1 <= i < j)%nat ->
     renderPage env f i (qualitySettings (quality st)) = Rendered (d i)) ->
  renderPage env f j (qualitySettings (quality st)) = Throws ->
  convertRun env (j + 1 + n) st =
  (Returned,
   mkState (Some f) (map d (seq 1 (j - 1)))
           (if (j =? 1)%nat then 0 else progressAt (j - 1) N)
           error (quality st)).
Proof.
  intros Hf HN Hj Hr Ht. unfold convertRun, convertPDFToImages. rewrite Hf.
  replace (j + 1 + n)%nat with (1 + ((j - 1) + (1 + n)))%nat by lia.
  rewrite runFor_plus. cbn [runFor resume]. rewrite HN. cbn [applyOpt].
  rewrite runFor_plus.
  destruct j as [|[|m]]; [lia | |].
  - cbn [Nat.sub Nat.add runFor resume pageNum totalPages settings images].
    replace (1 <=? N)%nat with true by (symmetry; apply Nat.leb_le; lia).
    rewrite Ht. rewrite runFor_Returned. cbn. now rewrite Hf.
  - replace (S (S m) - 1)%nat with (S m) by lia.
    rewrite (loop_rendered env f d N _ m [] 1);
      [| intros i Hi; apply Hr; lia | lia].
    cbn [Nat.add runFor resume pageNum totalPages settings images].
    replace (S (S m) <=? N)%nat with true by (symmetry; apply Nat.leb_le; lia).
    rewrite Ht. rewrite runFor_Returned. cbn. now rewrite Hf.
Qed.

Example throw_on_second_of_three :
  convertRun (scripted 3 (throwsAt 2)) 6 loaded =
  (Returned,
   mkState (Some pdfA) ["data:page1"] (progressAt 1 3) error high).
Proof.
  apply (throw_aborts_run (scripted 3 (throwsAt 2)) loaded pdfA 3 pageData 2 3);
    try reflexivity; try lia.
  intros i Hi. assert (i = 1%nat) by lia. subst i. reflexivity.
Qed.

(** ** Progress *)

Lemma progressAt_nonneg k N : 0 <= progressAt k N.
Proof.
  unfold progressAt, Qdiv.
  apply Qmult_le_0_compat; [| discriminate].
  apply Qmult_le_0_compat.
  - unfold Qle; cbn. lia.
  - apply Qinv_le_0_compat. unfold Qle; cbn. lia.
Qed.

Lemma snapshots_Returned env n st :
  snapshots (updatesFor env n Returned) st = [].
Proof. now rewrite updatesFor_Returned. Qed.

(** From the loop head on, the store's progress never decreases. *)
Lemma loop_progress_monotone env f n : forall l st,
  (1 <= pageNum l)%nat ->
  progress st <= progressAt (pageNum l - 1) (totalPages l) ->
  nondecreasingFrom (progress st)
    (map progress (snapshots (updatesFor env n (Looping f l)) st)).
Proof.
  induction n as [|n IH]; intros l st Hk Hp; [exact I|].
  cbn [updatesFor resume].
  destruct (pageNum l <=? totalPages l)%nat.
  - destruct (renderPage env f (pageNum l) (settings l)) as [d | |].
    + cbn [snapshots map nondecreasingFrom]. split.
      * cbn [applyUpdate progress]. eapply Qle_trans; [exact Hp|].
        apply progressAt_mono. lia.
      * apply IH; cbn [pageNum totalPages applyUpdate progress]; [lia|].
        replace (S (pageNum l) - 1)%nat with (pageNum l) by lia.
        apply Qle_refl.
    + apply IH; cbn [pageNum totalPages]; [lia|].
      eapply Qle_trans; [exact Hp|]. apply progressAt_mono. lia.
    + cbn [snapshots map nondecreasingFrom]. rewrite snapshots_Returned.
      split; [apply Qle_refl | exact I].
  - cbn [snapshots map nondecreasingFrom]. rewrite snapshots_Returned.
    split; [apply Qle_refl | exact I].
Qed.

(** X4: for a call alone on the store, that is with no load, no quality
    change and no other call between its resumptions: the store's progress
    starts at 0 and never decreases from one update of the call to the
    next, whatever the pages do. *)
Theorem progress_monotone env st f n :
  nondecreasingFrom 0
    (map progress
       (snapshots (updatesFor env n (Loading st f)) (applyUpdate UStart st))).
Proof.
  destruct n as [|n]; [exact I|].
  cbn [updatesFor resume].
  destruct (numPages env f) as [N|].
  - apply (loop_progress_monotone env f n
             (mkLocals N [] (qualitySettings (quality st)) 1)
             (applyUpdate UStart st)); cbn; [lia|].
    apply progressAt_nonneg.
  - cbn [snapshots map nondecreasingFrom]. rewrite snapshots_Returned.
    split; [apply Qle_refl | exact I].
Qed.

(** The progress written while [m] consecutive pages render. *)
Lemma loop_rendered_updates env f (d : nat -> string) N s m :
  forall imgs k,
    (forall j, (k <= j < k + m)%nat -> renderPage env f j s = Rendered (d j)) ->
    (k + m <= S N)%nat ->
    forall n,
      progressWrites (updatesFor env (m + n) (Looping f (mkLocals N imgs s k))) =
      map (fun j => progressAt j N) (seq k m) ++
      progressWrites
        (updatesFor env n
           (Looping f (mkLocals N (imgs ++ map d (seq k m)) s (k + m)))).
Proof.
  induction m as [|m IH]; intros imgs k Hr Hk n.
  - cbn. now rewrite app_nil_r, Nat.add_0_r.
  - cbn [Nat.add updatesFor resume pageNum totalPages settings images].
    replace (k <=? N)%nat with true by (symmetry; apply Nat.leb_le; lia).
    rewrite (Hr k) by lia.
    cbn [progressWrites seq map app].
    rewrite (IH (imgs ++ [d k]) (S k)); [| intros j Hj; apply Hr; lia | lia].
    rewrite <- app_assoc. cbn [app].
    replace (S k + m)%nat with (k + S m)%nat by lia.
    reflexivity.
Qed.

(** X5: when every page of an [N]-page document renders, the completed run
    writes exactly the [N] values [(k / N) * 100], [k = 1..N], in order. *)
Theorem all_rendered_progress env st f N (d : nat -> string) :
  numPages env f = Some N ->
  (forall j, (1 <= j <= N)%nat ->
     renderPage env f j (qualitySettings (quality st)) = Rendered (d j)) ->
  progressWrites (updatesFor env (N + 2) (Loading st f)) =
  map (fun k => progressAt k N) (seq 1 N).
Proof.
  intros HN Hr.
  replace (N + 2)%nat with (S (N + 1)) by lia.
  cbn [updatesFor resume]. rewrite HN.
  rewrite (loop_rendered_updates env f d N _ N [] 1);
    [| intros j Hj; apply Hr; lia | lia].
  cbn [updatesFor resume pageNum totalPages images].
  replace (1 + N <=? N)%nat with false by (symmetry; apply Nat.leb_gt; lia).
  cbn. apply app_nil_r.
Qed.

(** ** A page without a rendering context *)

(** C1 fails on the code: when [canvas.getContext('2d')] is [null] for the
    last page of a 2-page document, the [if (context)] of line 94 is not
    entered, nothing is thrown, and the run reaches [completed] with one
    page and progress 50, while its success toast announces 2 converted
    pages. *)
Theorem completed_with_missing_page :
  numPages (scripted 2 (noContextAt 2)) pdfA = Some 2%nat /\
  fst (convertRun (scripted 2 (noContextAt 2)) 4 loaded) = Returned /\
  status (snd (convertRun (scripted 2 (noContextAt 2)) 4 loaded)) = completed /\
  pages (snd (convertRun (scripted 2 (noContextAt 2)) 4 loaded)) = ["data:page1"] /\
  toastOnResume (scripted 2 (noContextAt 2))
    (fst (convertRun (scripted 2 (noContextAt 2)) 3 loaded)) = Some (Converted 2) /\
  progress (snd (convertRun (scripted 2 (noContextAt 2)) 4 loaded)) == 50 /\
  ~ progress (snd (convertRun (scripted 2 (noContextAt 2)) 4 loaded)) == 100.
Proof.
  repeat split. cbn. intros H. discriminate H.
Qed.

(** C5 fails on the code: a page whose rendering context cannot be obtained
    is skipped and the loop goes on to the next page.  For a 2-page
    document whose page 1 has no context, page 2 is rendered, the status is
    never [error] and the run ends [completed] with page 2 alone. *)
Theorem no_context_page_is_skipped :
  renderPage (scripted 2 (noContextAt 1)) pdfA 1 (qualitySettings high) = NoContext /\
  convertRun (scripted 2 (noContextAt 1)) 4 loaded =
    (Returned, mkState (Some pdfA) ["data:page2"] (progressAt 2 2) completed high) /\
  map status
    (snapshots (updatesFor (scripted 2 (noContextAt 1)) 4 (Loading loaded pdfA))
               (applyUpdate UStart loaded)) = [processing; completed].
Proof. repeat split. Qed.

(** C6 fails on the code: progress is computed from the loop index, so a
    skipped page leaves a gap.  For a 3-page document whose page 2 has no
    context the completed run writes two values, 100/3 and 100; the value
    200/3 is never taken, and after the second rendered page the progress
    is 100, not 100 * 2 / 3. *)
Theorem progress_misses_skipped_page :
  status (snd (convertRun (scripted 3 (noContextAt 2)) 5 loaded)) = completed /\
  pages (snd (convertRun (scripted 3 (noContextAt 2)) 5 loaded))
    = ["data:page1"; "data:page3"] /\
  progressWrites (updatesFor (scripted 3 (noContextAt 2)) 5 (Loading loaded pdfA))
    = [progressAt 1 3; progressAt 3 3] /\
  progressAt 3 3 == 100 /\
  ~ progressAt 3 3 == 100 * 2 / 3.
Proof.
  repeat split. cbn. intros H. discriminate H.
Qed.

(** ** Quality changes during a run *)

(** A call never reads the store: where it stands after [n] resumptions
    does not depend on what the store held. *)
Lemma runFor_call env n : forall c st st',
  fst (runFor env n c st) = fst (runFor env n c st').
Proof.
  induction n as [|n IH]; intros c st st'; cbn; trivial.
  destruct (resume env c) as [c1 u]. apply IH.
Qed.

Lemma sameButQuality_refl st : sameButQuality st st.
Proof. repeat split. Qed.

Lemma applyUpdate_sameButQuality u a b :
  sameButQuality a b -> sameButQuality (applyUpdate u a) (applyUpdate u b).
Proof.
  intros (Hf & Hp & Hg & Hs). destruct u; cbn; repeat split; trivial.
Qed.

Lemma applyOpt_sameButQuality u a b :
  sameButQuality a b -> sameButQuality (applyOpt u a) (applyOpt u b).
Proof.
  destruct u; cbn; trivial. apply applyUpdate_sameButQuality.
Qed.

Lemma onValueChange_sameButQuality q a b :
  sameButQuality a b -> sameButQuality (onValueChange q a) b.
Proof. intros (Hf & Hp & Hg & Hs). repeat split; trivial. Qed.

(** The tier a call was started with stays the tier of its settings. *)
Lemma resume_callQuality env q c :
  callQuality q c -> callQuality q (fst (resume env c)).
Proof.
  destruct c as [s f | f l |]; cbn [resume]; intros H.
  - destruct (numPages env f); cbn; trivial. now rewrite <- H.
  - destruct (pageNum l <=? totalPages l)%nat; cbn; trivial.
    destruct (renderPage env f (pageNum l) (settings l)); cbn; trivial.
  - exact I.
Qed.

Lemma runFor_callQuality env q n : forall c st,
  callQuality q c -> callQuality q (fst (runFor env n c st)).
Proof.
  induction n as [|n IH]; intros c st H; cbn; trivial.
  pose proof (resume_callQuality env q c H) as H1.
  destruct (resume env c) as [c1 u]. now apply IH.
Qed.

(** With one call in flight and only quality changes besides its
    resumptions, the call and the store, quality apart, are those of the
    call run on its own. *)
Lemma exec_single_call env evs : forall c st st',
  forallb qualityOrResume evs = true ->
  sameButQuality st st' ->
  calls (exec env evs (mkSystem st [c]))
    = [fst (runFor env (resumes evs) c st')] /\
  sameButQuality (store (exec env evs (mkSystem st [c])))
                 (snd (runFor env (resumes evs) c st')).
Proof.
  induction evs as [|ev evs IH]; intros c st st' Hev Hsame.
  - cbn. split; trivial.
  - cbn [forallb] in Hev. apply andb_true_iff in Hev as [Hev1 Hevs].
    change (exec env (ev :: evs) (mkSystem st [c]))
      with (exec env evs (step env ev (mkSystem st [c]))).
    destruct ev as [fo | files | q | | i]; try discriminate Hev1.
    + cbn [step store calls resumes].
      destruct (settingsShown st).
      * apply IH; [trivial | now apply onValueChange_sameButQuality].
      * now apply IH.
    + destruct i as [|i]; [|discriminate Hev1].
      cbn [step store calls resumes resumeAt runFor].
      destruct (resume env c) as [c1 u].
      apply IH; trivial. now apply applyOpt_sameButQuality.
Qed.

Lemma renderedImages_snoc env f s m : forall k,
  renderedImages env f s k (S m) =
  renderedImages env f s k m ++
  match renderPage env f (k + m) s with
  | Rendered d => [d]
  | _ => []
  end.
Proof.
  induction m as [|m IH]; intros k.
  - cbn. rewrite Nat.add_0_r. now destruct (renderPage env f k s).
  - change (renderedImages env f s k (S (S m)))
      with (match renderPage env f k s with
            | Rendered d => d :: renderedImages env f s (S k) (S m)
            | _ => renderedImages env f s (S k) (S m)
            end).
    rewrite (IH (S k)). replace (k + S m)%nat with (S k + m)%nat by lia.
    cbn [renderedImages]. now destruct (renderPage env f k s).
Qed.

(** A resumption renders its page with the settings the call was started
    with, and what it writes to [pages] are images rendered with them. *)
Lemma resume_rendersWith env f s c st :
  callRendersWith env f s c ->
  (exists k, pages st = renderedImages env f s 1 k) ->
  callRendersWith env f s (fst (resume env c)) /\
  (exists k, pages (applyOpt (snd (resume env c)) st)
             = renderedImages env f s 1 k).
Proof.
  intros Hc Hp. destruct c as [state f' | f' l |]; cbn [resume].
  - destruct Hc as [-> Hs]. destruct (numPages env f); cbn.
    + split; [| exact Hp]. repeat split; trivial.
    + split; [exact I | exact Hp].
  - destruct Hc as (-> & Hs & Hk & Hi).
    destruct (pageNum l <=? totalPages l)%nat.
    + assert (Hsnoc : renderedImages env f s 1 (pageNum l)
                      = images l ++ match renderPage env f (pageNum l) s with
                                    | Rendered d => [d]
                                    | _ => []
                                    end).
      { replace (pageNum l) with (S (pageNum l - 1)) at 1 by lia.
        rewrite renderedImages_snoc, <- Hi.
        now replace (1 + (pageNum l - 1))%nat with (pageNum l) by lia. }
      rewrite Hs. destruct (renderPage env f (pageNum l) s) as [d | |]; cbn.
      * rewrite Nat.sub_0_r, <- Hsnoc.
        split; [repeat split; trivial; lia | now exists (pageNum l)].
      * rewrite app_nil_r in Hsnoc. rewrite Nat.sub_0_r, Hsnoc.
        split; [repeat split; trivial; lia | exact Hp].
      * split; [exact I | exact Hp].
    + cbn. split; [exact I | eexists; exact Hi].
  - cbn. split; [exact I | exact Hp].
Qed.

Lemma runFor_rendersWith env f s n : forall c st,
  callRendersWith env f s c ->
  (exists k, pages st = renderedImages env f s 1 k) ->
  callRendersWith env f s (fst (runFor env n c st)) /\
  (exists k, pages (snd (runFor env n c st)) = renderedImages env f s 1 k).
Proof.
  induction n as [|n IH]; intros c st Hc Hp; [now split|].
  destruct (resume_rendersWith env f s c st Hc Hp) as [Hc1 Hp1].
  cbn [runFor]. destruct (resume env c) as [c1 u]. now apply IH.
Qed.

(** C10: the settings every page of a run is rendered with are those of
    the tier the session had at the click.  Two sessions that start a run
    on [f] from the same state and then see only quality changes between
    the same number of resumptions hold the same call, raster pages
    included, and the same [pages]; the call renders with the settings of
    the starting tier, and [pages] holds images that pages of [f] give
    under these settings, whatever the tier has been changed to. *)
Theorem run_fixed_by_starting_quality env st f evs1 evs2 :
  file st = Some f ->
  convertButtonShown st = true ->
  forallb qualityOrResume evs1 = true ->
  forallb qualityOrResume evs2 = true ->
  resumes evs1 = resumes evs2 ->
  calls (exec env (ConvertClicked :: evs1) (mkSystem st []))
    = calls (exec env (ConvertClicked :: evs2) (mkSystem st [])) /\
  pages (store (exec env (ConvertClicked :: evs1) (mkSystem st [])))
    = pages (store (exec env (ConvertClicked :: evs2) (mkSystem st []))) /\
  (forall c, In c (calls (exec env (ConvertClicked :: evs1) (mkSystem st []))) ->
     callRendersWith env f (qualitySettings (quality st)) c) /\
  (exists k,
     pages (store (exec env (ConvertClicked :: evs1) (mkSystem st [])))
     = renderedImages env f (qualitySettings (quality st)) 1 k).
Proof.
  intros Hf Hshown H1 H2 Hn.
  assert (Hstart : forall evs,
    exec env (ConvertClicked :: evs) (mkSystem st []) =
    exec env evs (mkSystem (applyUpdate UStart st) [Loading st f])).
  { intros evs. unfold exec at 1. cbn [fold_left step store calls].
    rewrite Hshown. unfold convertPDFToImages. now rewrite Hf. }
  rewrite !Hstart.
  set (c0 := Loading st f). set (st0 := applyUpdate UStart st).
  destruct (exec_single_call env evs1 c0 st0 st0 H1 (sameButQuality_refl _))
    as [Hc1 Hs1].
  destruct (exec_single_call env evs2 c0 st0 st0 H2 (sameButQuality_refl _))
    as [Hc2 Hs2].
  destruct (runFor_rendersWith env f (qualitySettings (quality st))
              (resumes evs1) c0 st0) as [Hr Hp].
  { now split. }
  { now exists 0%nat. }
  destruct Hs1 as (_ & Hp1 & _). destruct Hs2 as (_ & Hp2 & _).
  rewrite Hc1, Hc2, Hp1, Hp2, <- Hn. repeat split; trivial.
  intros c [Hc | []]. now subst c.
Qed.

(** A quality change in the middle of a run over [scaled 2], whose pages
    show the scale they were rendered with, against the same run left
    alone. *)
Lemma run_fixed_by_starting_quality_witness :
  calls (exec (scaled 2)
           [ConvertClicked; Resumed 0; Resumed 0; QualityChanged low; Resumed 0;
            Resumed 0]
           (mkSystem loaded []))
    = calls (exec (scaled 2)
               [ConvertClicked; Resumed 0; Resumed 0; Resumed 0; Resumed 0]
               (mkSystem loaded [])) /\
  pages (store (exec (scaled 2)
           [ConvertClicked; Resumed 0; Resumed 0; QualityChanged low; Resumed 0;
            Resumed 0]
           (mkSystem loaded [])))
    = pages (store (exec (scaled 2)
               [ConvertClicked; Resumed 0; Resumed 0; Resumed 0; Resumed 0]
               (mkSystem loaded []))) /\
  (forall c,
     In c (calls (exec (scaled 2)
             [ConvertClicked; Resumed 0; Resumed 0; QualityChanged low; Resumed 0;
              Resumed 0]
             (mkSystem loaded []))) ->
     callRendersWith (scaled 2) pdfA (qualitySettings high) c) /\
  (exists k,
     pages (store (exec (scaled 2)
             [ConvertClicked; Resumed 0; Resumed 0; QualityChanged low; Resumed 0;
              Resumed 0]
             (mkSystem loaded [])))
     = renderedImages (scaled 2) pdfA (qualitySettings high) 1 k).
Proof.
  apply (run_fixed_by_starting_quality (scaled 2) loaded pdfA
           [Resumed 0; Resumed 0; QualityChanged low; Resumed 0; Resumed 0]
           [Resumed 0; Resumed 0; Resumed 0; Resumed 0]); reflexivity.
Defined.

(** The pages of that run carry the scale of [high], the tier at the click,
    although the store's tier is [low] when the run ends; the same run
    started from [low] gives other pages. *)
Example quality_change_midrun_pages :
  store (exec (scaled 2)
           [ConvertClicked; Resumed 0; Resumed 0; QualityChanged low; Resumed 0;
            Resumed 0]
           (mkSystem loaded []))
  = mkState (Some pdfA) ["data:page1@2x"; "data:page2@2x"] (progressAt 2 2)
            completed low /\
  pages (snd (convertRun (scaled 2) 4 (onValueChange low loaded)))
  = ["data:page1@1x"; "data:page2@1x"].
Proof. split; reflexivity. Qed.

(** * Further properties of the component *)

(** ** Runs at concrete documents *)

(** X1: when every page of a document of [N] pages, [N] at least 1, renders,
    the call has returned after [N + 2] resumptions and the session is
    [completed] with the [N] raster pages in source order, a progress of
    100, the file and the quality it had, and the download button
    rendered. *)
Theorem every_page_rendered_run env st f N (d : nat -> string) :
  file st = Some f ->
  numPages env f = Some N ->
  (1 <= N)%nat ->
  (forall j, (1 <= j <= N)%nat ->
     renderPage env f j (qualitySettings (quality st)) = Rendered (d j)) ->
  fst (convertRun env (N + 2) st) = Returned /\
  status (snd (convertRun env (N + 2) st)) = completed /\
  pages (snd (convertRun env (N + 2) st)) = map d (seq 1 N) /\
  progress (snd (convertRun env (N + 2) st)) == 100 /\
  file (snd (convertRun env (N + 2) st)) = Some f /\
  quality (snd (convertRun env (N + 2) st)) = quality st /\
  downloadButtonShown (snd (convertRun env (N + 2) st)) = true.
Proof.
  intros Hf HN Hpos Hr.
  rewrite (all_rendered_completes env st f N d Hf HN Hpos Hr). cbn [fst snd].
  cbn [status pages progress file quality].
  repeat split; trivial.
  - now apply progressAt_full.
  - unfold downloadButtonShown. cbn [status pages status_eqb andb].
    rewrite length_map, length_seq. apply Nat.ltb_lt. lia.
Qed.

Lemma every_page_rendered_run_witness :
  fst (convertRun (scripted 2 allRendered) (2 + 2) loaded) = Returned /\
  status (snd (convertRun (scripted 2 allRendered) (2 + 2) loaded)) = completed /\
  pages (snd (convertRun (scripted 2 allRendered) (2 + 2) loaded))
    = map pageData (seq 1 2) /\
  progress (snd (convertRun (scripted 2 allRendered) (2 + 2) loaded)) == 100 /\
  file (snd (convertRun (scripted 2 allRendered) (2 + 2) loaded)) = Some pdfA /\
  quality (snd (convertRun (scripted 2 allRendered) (2 + 2) loaded))
    = quality loaded /\
  downloadButtonShown (snd (convertRun (scripted 2 allRendered) (2 + 2) loaded))
    = true.
Proof.
  apply (every_page_rendered_run (scripted 2 allRendered) loaded pdfA 2 pageData).
  - reflexivity.
  - reflexivity.
  - lia.
  - intros j Hj; reflexivity.
Defined.

Lemma pages_never_exceed_page_count_witness :
  (List.length (pages (snd (convertRun (scripted 3 (noContextAt 2)) 4 loaded)))
   <= 3)%nat.
Proof.
  apply (pages_never_exceed_page_count (scripted 3 (noContextAt 2)) loaded pdfA 3 4);
    reflexivity.
Defined.

(** X3: when page [j] throws after [j - 1] rendered pages, the call has
    returned after [j + 1] resumptions and stays so: the status is [error],
    the [j - 1] pages rendered before stay in the store, and neither the
    convert button nor the download button is rendered, so that the pages
    kept cannot be downloaded and a new attempt needs a file to be loaded. *)
Theorem page_error_ends_run env st f N (d : nat -> string) j n :
  file st = Some f ->
  numPages env f = Some N ->
  (1 <= j <= N)%nat ->
  (forall i, (1 <= i < j)%nat ->
     renderPage env f i (qualitySettings (quality st)) = Rendered (d i)) ->
  renderPage env f j (qualitySettings (quality st)) = Throws ->
  fst (convertRun env (j + 1 + n) st) = Returned /\
  status (snd (convertRun env (j + 1 + n) st)) = error /\
  pages (snd (convertRun env (j + 1 + n) st)) = map d (seq 1 (j - 1)) /\
  convertButtonShown (snd (convertRun env (j + 1 + n) st)) = false /\
  downloadButtonShown (snd (convertRun env (j + 1 + n) st)) = false.
Proof.
  intros Hf HN Hj Hr Ht.
  rewrite (throw_aborts_run env st f N d j n Hf HN Hj Hr Ht).
  repeat split.
Qed.

Lemma page_error_ends_run_witness :
  fst (convertRun (scripted 3 (throwsAt 2)) (2 + 1 + 3) loaded) = Returned /\
  status (snd (convertRun (scripted 3 (throwsAt 2)) (2 + 1 + 3) loaded)) = error /\
  pages (snd (convertRun (scripted 3 (throwsAt 2)) (2 + 1 + 3) loaded))
    = map pageData (seq 1 (2 - 1)) /\
  convertButtonShown (snd (convertRun (scripted 3 (throwsAt 2)) (2 + 1 + 3) loaded))
    = false /\
  downloadButtonShown (snd (convertRun (scripted 3 (throwsAt 2)) (2 + 1 + 3) loaded))
    = false.
Proof.
  apply (page_error_ends_run (scripted 3 (throwsAt 2)) loaded pdfA 3 pageData 2 3).
  - reflexivity.
  - reflexivity.
  - lia.
  - intros i Hi. assert (E : i = 1%nat) by lia. rewrite E. reflexivity.
  - reflexivity.
Defined.

Lemma all_rendered_progress_witness :
  progressWrites (updatesFor (scripted 3 allRendered) (3 + 2) (Loading loaded pdfA)) =
  map (fun k => progressAt k 3) (seq 1 3).
Proof.
  apply (all_rendered_progress (scripted 3 allRendered) loaded pdfA 3 pageData).
  - reflexivity.
  - intros j Hj; reflexivity.
Defined.

Lemma fileName_suffix_witness :
  fileName (mkState (Some (mkFile "report.pdf" "application/pdf")) [] 0 idle high)
  = ("report" ++ "_image-only.pdf")%string.
Proof.
  apply (fileName_suffix _ (mkFile "report.pdf" "application/pdf") "report");
    reflexivity.
Defined.

(** ** More on the output file name *)

(** The first occurrence of the pattern is the one replaced, wherever it
    stands; what follows it is kept. *)
Lemma replaceFirst_first_occurrence (pat repl pre post : string) :
  noEarlierMatch pat pre (pat ++ post) = true ->
  replaceFirst pat repl (pre ++ pat ++ post)%string = (pre ++ repl ++ post)%string.
Proof.
  induction pre as [|c b IH]; intros H.
  - cbn [append]. rewrite replaceFirst_unfold.
    assert (Hp : String.prefix pat (pat ++ post) = true).
    { clear. induction pat as [|a pat IHp]; cbn.
      - now destruct post.
      - now destruct (ascii_dec a a). }
    rewrite Hp. f_equal.
    clear. induction pat as [|a pat IHp].
    + cbn. rewrite Nat.sub_0_r.
      induction post as [|d post IHq]; cbn; trivial.
      destruct post; cbn in *; congruence.
    + cbn [append String.length Nat.sub String.substring]. exact IHp.
  - cbn [noEarlierMatch] in H. apply andb_true_iff in H as [Hc Hb].
    apply negb_true_iff in Hc.
    rewrite replaceFirst_unfold. cbn [append] in *. rewrite Hc. now rewrite IH.
Qed.

(** X20: the output name is the source name with its first [.pdf]
    replaced by [_image-only.pdf], wherever that first [.pdf] stands: what
    precedes it and what follows it are kept. *)
Theorem fileName_first_pdf_replaced
  (st : ConversionState) (f : File) (pre post : string) :
  file st = Some f ->
  name f = (pre ++ ".pdf" ++ post)%string ->
  noEarlierMatch ".pdf" pre (".pdf" ++ post) = true ->
  fileName st = (pre ++ "_image-only.pdf" ++ post)%string.
Proof.
  intros Hf Hn Hm. unfold fileName.
  rewrite Hf, Hn, replaceFirst_first_occurrence by trivial.
  destruct pre; reflexivity.
Qed.

Lemma fileName_first_pdf_replaced_witness :
  fileName (mkState (Some (mkFile "scan.pdf.bak" "application/pdf")) [] 0 idle high)
  = ("scan" ++ "_image-only.pdf" ++ ".bak")%string.
Proof.
  apply (fileName_first_pdf_replaced _ (mkFile "scan.pdf.bak" "application/pdf")
           "scan" ".bak"); reflexivity.
Defined.

(** A string without an occurrence of a non-empty pattern is returned as
    it is. *)
Lemma replaceFirst_no_match (pat repl s : string) :
  pat <> EmptyString ->
  noEarlierMatch pat s EmptyString = true ->
  replaceFirst pat repl s = s.
Proof.
  intros Hpat. induction s as [|c s IH]; intros H.
  - rewrite replaceFirst_unfold. destruct pat; [congruence | reflexivity].
  - cbn [noEarlierMatch] in H. apply andb_true_iff in H as [Hc Hs].
    apply negb_true_iff in Hc. rewrite append_empty_r in Hc.
    rewrite replaceFirst_unfold, Hc. now rewrite IH.
Qed.

(** X19: a source name that holds no [.pdf], such as one with an upper-case
    extension, is the output name: the download carries the name of the
    source. *)
Theorem fileName_without_pdf (st : ConversionState) (f : File) :
  file st = Some f ->
  name f <> EmptyString ->
  noEarlierMatch ".pdf" (name f) EmptyString = true ->
  fileName st = name f.
Proof.
  intros Hf Hne Hm. unfold fileName. rewrite Hf.
  rewrite replaceFirst_no_match; trivial; [| discriminate].
  destruct (name f); [congruence | reflexivity].
Qed.

Lemma fileName_without_pdf_witness :
  fileName (mkState (Some (mkFile "SCAN.PDF" "application/pdf")) [] 0 idle high)
  = "SCAN.PDF".
Proof.
  apply (fileName_without_pdf _ (mkFile "SCAN.PDF" "application/pdf"));
    [reflexivity | discriminate | reflexivity].
Defined.

(** ** Every run ends *)

Lemma loop_returns env f n m : forall l st,
  (pageNum l + m = S (totalPages l))%nat ->
  fst (runFor env (S m + n) (Looping f l) st) = Returned /\
  finished (snd (runFor env (S m + n) (Looping f l) st)).
Proof.
  induction m as [|m IH]; intros l st Hk.
  - cbn [Nat.add runFor resume].
    replace (pageNum l <=? totalPages l)%nat with false
      by (symmetry; apply Nat.leb_gt; lia).
    rewrite runFor_Returned. cbn. split; [reflexivity | now left].
  - change (S (S m) + n)%nat with (S (S m + n)).
    cbn [runFor resume].
    replace (pageNum l <=? totalPages l)%nat with true
      by (symmetry; apply Nat.leb_le; lia).
    destruct (renderPage env f (pageNum l) (settings l)) as [d | |].
    + apply IH. cbn. lia.
    + apply IH. cbn. lia.
    + rewrite runFor_Returned. cbn. split; [reflexivity | now right].
Qed.

(** X6: whatever pdf.js and the canvas do, a call over [f] has returned after
    [runBound env f] resumptions, that is [numPages + 2] of them, and the
    status is then [completed] or [error], never [processing]; further
    resumptions change nothing of that. *)
Theorem run_terminates env st f n :
  file st = Some f ->
  fst (convertRun env (runBound env f + n) st) = Returned /\
  finished (snd (convertRun env (runBound env f + n) st)).
Proof.
  intros Hf. unfold convertRun, convertPDFToImages, runBound. rewrite Hf.
  destruct (numPages env f) as [N|] eqn:HN.
  - replace (N + 2 + n)%nat with (S (S N + n)) by lia.
    cbn [runFor resume]. rewrite HN.
    apply loop_returns. cbn. lia.
  - cbn [Nat.add runFor resume]. rewrite HN, runFor_Returned.
    cbn. split; [reflexivity | now right].
Qed.

Lemma run_terminates_witness :
  fst (convertRun (scripted 3 (noContextAt 2))
         (runBound (scripted 3 (noContextAt 2)) pdfA + 0) loaded) = Returned /\
  finished (snd (convertRun (scripted 3 (noContextAt 2))
                   (runBound (scripted 3 (noContextAt 2)) pdfA + 0) loaded)).
Proof.
  apply (run_terminates (scripted 3 (noContextAt 2)) loaded pdfA 0). reflexivity.
Defined.

(** X7: a file pdf.js cannot open ends the run at once: status [error], no
    page, progress 0, and neither the convert nor the download button is
    rendered afterwards; only loading a file brings the convert button
    back. *)
Theorem unreadable_file_errors env st f n :
  file st = Some f ->
  numPages env f = None ->
  convertRun env (1 + n) st = (Returned, mkState (Some f) [] 0 error (quality st)) /\
  convertButtonShown (snd (convertRun env (1 + n) st)) = false /\
  downloadButtonShown (snd (convertRun env (1 + n) st)) = false.
Proof.
  intros Hf HN.
  assert (E : convertRun env (1 + n) st =
              (Returned, mkState (Some f) [] 0 error (quality st))).
  { unfold convertRun, convertPDFToImages. rewrite Hf.
    cbn [Nat.add runFor resume]. rewrite HN, runFor_Returned. cbn.
    now rewrite Hf. }
  rewrite E. repeat split.
Qed.

Lemma unreadable_file_errors_witness :
  convertRun unreadable (1 + 0) loaded
    = (Returned, mkState (Some pdfA) [] 0 error (quality loaded)) /\
  convertButtonShown (snd (convertRun unreadable (1 + 0) loaded)) = false /\
  downloadButtonShown (snd (convertRun unreadable (1 + 0) loaded)) = false.
Proof.
  apply (unreadable_file_errors unreadable loaded pdfA 0); reflexivity.
Defined.

(** ** What a run that does not throw leaves in the store *)

Lemma runFor_S env n c st :
  runFor env (S n) c st =
  runFor env n (fst (resume env c)) (applyOpt (snd (resume env c)) st).
Proof. cbn. now destruct (resume env c). Qed.

Lemma loop_no_throw env f m : forall l st,
  (pageNum l + m = S (totalPages l))%nat ->
  (forall j, (pageNum l <= j <= totalPages l)%nat ->
     renderPage env f j (settings l) <> Throws) ->
  fst (runFor env (S m) (Looping f l) st) = Returned /\
  snd (runFor env (S m) (Looping f l) st) =
  mkState (file st)
          (images l ++ renderedImages env f (settings l) (pageNum l) m)
          (progress (snd (runFor env (S m) (Looping f l) st)))
          completed (quality st).
Proof.
  induction m as [|m IH]; intros l st Hk Hr.
  - cbn [runFor resume].
    replace (pageNum l <=? totalPages l)%nat with false
      by (symmetry; apply Nat.leb_gt; lia).
    cbn. now rewrite app_nil_r.
  - rewrite runFor_S. cbn [resume renderedImages].
    replace (pageNum l <=? totalPages l)%nat with true
      by (symmetry; apply Nat.leb_le; lia).
    pose proof (Hr (pageNum l) ltac:(lia)) as Hnt.
    destruct (renderPage env f (pageNum l) (settings l)) as [d | |];
      [| | congruence]; cbn [fst snd applyOpt].
    + match goal with
      | |- context [runFor env (S m) (Looping f ?l') ?st'] =>
          destruct (IH l' st') as [H1 H2];
            [cbn; lia | cbn; intros j Hj; apply Hr; lia |]
      end.
      split; [exact H1|]. rewrite H2 at 1. cbn.
      now rewrite <- app_assoc.
    + match goal with
      | |- context [runFor env (S m) (Looping f ?l') ?st'] =>
          destruct (IH l' st') as [H1 H2];
            [cbn; lia | cbn; intros j Hj; apply Hr; lia |]
      end.
      split; [exact H1|]. rewrite H2 at 1. reflexivity.
Qed.

(** X8: when no page throws, the run over an [N]-page document ends
    [completed] and [pages] holds exactly the images of the pages that got
    a rendering context, in page order: a page without one leaves no trace
    in the result. *)
Theorem no_throw_run_keeps_rendered_pages env st f N :
  file st = Some f ->
  numPages env f = Some N ->
  (forall j, (1 <= j <= N)%nat ->
     renderPage env f j (qualitySettings (quality st)) <> Throws) ->
  fst (convertRun env (N + 2) st) = Returned /\
  status (snd (convertRun env (N + 2) st)) = completed /\
  pages (snd (convertRun env (N + 2) st)) =
    renderedImages env f (qualitySettings (quality st)) 1 N.
Proof.
  intros Hf HN Hr. unfold convertRun, convertPDFToImages. rewrite Hf.
  replace (N + 2)%nat with (S (S N)) by lia.
  rewrite runFor_S. cbn [resume]. rewrite HN. cbn [fst snd applyOpt].
  match goal with
  | |- context [runFor env (S N) (Looping f ?l') ?st'] =>
      destruct (loop_no_throw env f N l' st') as [H1 H2];
        [cbn; lia | cbn; intros j Hj; apply Hr; lia |]
  end.
  split; [exact H1|]. rewrite H2. cbn. split; reflexivity.
Qed.

Lemma no_throw_run_keeps_rendered_pages_witness :
  fst (convertRun (scripted 3 (noContextAt 2)) (3 + 2) loaded) = Returned /\
  status (snd (convertRun (scripted 3 (noContextAt 2)) (3 + 2) loaded)) = completed /\
  pages (snd (convertRun (scripted 3 (noContextAt 2)) (3 + 2) loaded)) =
    renderedImages (scripted 3 (noContextAt 2)) pdfA
                   (qualitySettings (quality loaded)) 1 3.
Proof.
  apply (no_throw_run_keeps_rendered_pages (scripted 3 (noContextAt 2)) loaded pdfA 3).
  - reflexivity.
  - reflexivity.
  - intros j Hj. cbn. unfold noContextAt. destruct (j =? 2)%nat; discriminate.
Defined.

(** X9: a document of no page gives a [completed] session without pages, for
    which the component renders neither the convert button, nor the
    progress card, nor the download button. *)
Theorem empty_document_dead_end env st f :
  file st = Some f ->
  numPages env f = Some 0%nat ->
  convertRun env 2 st = (Returned, mkState (Some f) [] 0 completed (quality st)) /\
  convertButtonShown (snd (convertRun env 2 st)) = false /\
  progressShown (snd (convertRun env 2 st)) = false /\
  downloadButtonShown (snd (convertRun env 2 st)) = false.
Proof.
  intros Hf HN.
  assert (E : convertRun env 2 st =
              (Returned, mkState (Some f) [] 0 completed (quality st))).
  { unfold convertRun, convertPDFToImages. rewrite Hf.
    cbn [runFor resume]. rewrite HN. cbn. now rewrite Hf. }
  rewrite E. repeat split.
Qed.

Lemma empty_document_dead_end_witness :
  convertRun (scripted 0 allRendered) 2 loaded
    = (Returned, mkState (Some pdfA) [] 0 completed (quality loaded)) /\
  convertButtonShown (snd (convertRun (scripted 0 allRendered) 2 loaded)) = false /\
  progressShown (snd (convertRun (scripted 0 allRendered) 2 loaded)) = false /\
  downloadButtonShown (snd (convertRun (scripted 0 allRendered) 2 loaded)) = false.
Proof.
  apply (empty_document_dead_end (scripted 0 allRendered) loaded pdfA); reflexivity.
Defined.

(** ** What a resumed call can do to the store *)

Lemma progressAt_le_100 k N : (k <= N)%nat -> progressAt k N <= 100.
Proof.
  intros Hk. destruct N as [|N].
  - assert (k = 0%nat) by lia. subst k. discriminate.
  - eapply Qle_trans; [apply (progressAt_mono k (S N) (S N)); lia|].
    rewrite progressAt_full by lia. apply Qle_refl.
Qed.

(** The updates of a call: a page with a progress within the bar, the
    completion, or the error. *)
Lemma resume_update env c c' u :
  resume env c = (c', Some u) ->
  (exists p imgs, u = UPage p imgs /\ inRange p) \/
  (exists imgs, u = UCompleted imgs) \/
  u = UError.
Proof.
  destruct c as [s f | f l |]; cbn [resume].
  - destruct (numPages env f); intros H; inversion H; auto.
  - destruct (pageNum l <=? totalPages l)%nat eqn:E.
    + apply Nat.leb_le in E.
      destruct (renderPage env f (pageNum l) (settings l));
        intros H; inversion H; auto.
      left. do 2 eexists. split; [reflexivity|]. split.
      * apply progressAt_nonneg.
      * now apply progressAt_le_100.
    + intros H; inversion H. right; left. now eexists.
  - intros H; inversion H.
Qed.

Lemma resumeAt_update env i : forall cs cs' u,
  resumeAt env i cs = (cs', Some u) ->
  exists c c', resume env c = (c', Some u).
Proof.
  induction i as [|i IH]; intros [|c cs] cs' u; cbn [resumeAt];
    try (intros H; discriminate H).
  - destruct (resume env c) as [c1 u1] eqn:E. intros H; inversion H; subst.
    now exists c, c1.
  - destruct (resumeAt env i cs) as [cs1 u1] eqn:E. intros H; inversion H; subst.
    now apply (IH cs cs1).
Qed.

Lemma step_Resumed_update env i s :
  step env (Resumed i) s = mkSystem (store s) (calls (step env (Resumed i) s)) \/
  exists c c' u, resume env c = (c', Some u) /\
                 store (step env (Resumed i) s) = applyUpdate u (store s).
Proof.
  cbn [step]. destruct (resumeAt env i (calls s)) as [cs [u|]] eqn:E.
  - right. destruct (resumeAt_update env i _ _ _ E) as (c & c' & Hc).
    exists c, c', u. now split.
  - left. reflexivity.
Qed.

(** A resumed call never touches the session's file or quality, and
    leaves the status as it is or sets it to [completed] or [error]. *)
Lemma resumed_effect env i s :
  file (store (step env (Resumed i) s)) = file (store s) /\
  quality (store (step env (Resumed i) s)) = quality (store s) /\
  (status (store (step env (Resumed i) s)) = status (store s) \/
   finished (store (step env (Resumed i) s))).
Proof.
  destruct (step_Resumed_update env i s) as [H | (c & c' & u & Hu & Hs)].
  - rewrite H. cbn. auto.
  - rewrite Hs.
    destruct (resume_update env c c' u Hu) as [(p & imgs & -> & _) | [(imgs & ->) | ->]];
      cbn; unfold finished; cbn; auto.
Qed.

(** ** Invariants of the mounted component *)

Lemma exec_cons env ev evs s :
  exec env (ev :: evs) s = exec env evs (step env ev s).
Proof. reflexivity. Qed.

Lemma exec_app env evs1 evs2 s :
  exec env (evs1 ++ evs2) s = exec env evs2 (exec env evs1 s).
Proof. unfold exec. apply fold_left_app. Qed.

(** An invariant of [step] that holds at first holds after any events. *)
Lemma exec_invariant env (P : System -> Prop) :
  (forall ev s, P s -> P (step env ev s)) ->
  forall evs s, P s -> P (exec env evs s).
Proof.
  intros Hstep evs; induction evs as [|ev evs IH]; intros s Hs; trivial.
  rewrite exec_cons. apply IH. now apply Hstep.
Qed.

(** X10: however many calls are in flight and in whatever order they are
    resumed, resumptions alone never change which file the session holds
    nor its quality tier. *)
Theorem resumptions_keep_file_and_quality env evs : forall s,
  forallb isResumed evs = true ->
  file (store (exec env evs s)) = file (store s) /\
  quality (store (exec env evs s)) = quality (store s).
Proof.
  induction evs as [|ev evs IH]; intros s Hev; [now split|].
  cbn [forallb] in Hev. apply andb_true_iff in Hev as [Hev1 Hevs].
  rewrite exec_cons. destruct (IH (step env ev s) Hevs) as [Hf Hq].
  destruct ev as [fo | files | q | | i]; try discriminate Hev1.
  destruct (resumed_effect env i s) as (Ef & Eq & _).
  split; congruence.
Qed.

Lemma resumptions_keep_file_and_quality_witness :
  file (store (exec (scripted 2 (throwsAt 2))
                 [Resumed 0; Resumed 1; Resumed 0; Resumed 0]
                 (mkSystem midRun [Loading loaded pdfA; Loading midRun pdfA])))
    = file (store (mkSystem midRun [Loading loaded pdfA; Loading midRun pdfA])) /\
  quality (store (exec (scripted 2 (throwsAt 2))
                 [Resumed 0; Resumed 1; Resumed 0; Resumed 0]
                 (mkSystem midRun [Loading loaded pdfA; Loading midRun pdfA])))
    = quality (store (mkSystem midRun [Loading loaded pdfA; Loading midRun pdfA])).
Proof.
  apply (resumptions_keep_file_and_quality (scripted 2 (throwsAt 2))).
  reflexivity.
Defined.

Lemma handleFileSelect_progress fo st :
  inRange (progress st) -> inRange (progress (handleFileSelect fo st)).
Proof.
  intros H. destruct fo as [f|]; cbn; trivial.
  destruct (isPdf f); cbn; trivial. split; discriminate.
Qed.

Lemma onDrop_progress files st :
  inRange (progress st) -> inRange (progress (onDrop files st)).
Proof.
  intros H. unfold onDrop. destruct (find isPdf files); cbn; trivial.
  split; discriminate.
Qed.

Lemma step_progress env ev s :
  inRange (progress (store s)) -> inRange (progress (store (step env ev s))).
Proof.
  intros H. destruct ev as [fo | files | q | | i].
  - now apply handleFileSelect_progress.
  - now apply onDrop_progress.
  - cbn [step]. destruct (settingsShown (store s)); trivial.
  - cbn [step]. destruct (convertButtonShown (store s)); trivial.
    unfold convertPDFToImages. destruct (file (store s)); cbn; trivial.
    split; discriminate.
  - destruct (step_Resumed_update env i s) as [E | (c & c' & u & Hu & Hs)].
    + rewrite E. exact H.
    + rewrite Hs.
      destruct (resume_update env c c' u Hu)
        as [(p & imgs & -> & Hp) | [(imgs & ->) | ->]]; cbn; trivial.
Qed.

Lemma progress_invariant env evs :
  inRange (progress (store (exec env evs mounted))).
Proof.
  apply (exec_invariant env (fun s => inRange (progress (store s)))).
  - apply step_progress.
  - split; discriminate.
Qed.

Lemma step_file_kept env ev s f :
  file (store s) = Some f ->
  exists g, file (store (step env ev s)) = Some g.
Proof.
  intros Hf. destruct ev as [fo | files | q | | i].
  - cbn [step store]. destruct fo as [g|]; cbn; eauto.
    destruct (isPdf g); cbn; eauto.
  - cbn [step store]. unfold onDrop. destruct (find isPdf files); cbn; eauto.
  - cbn [step]. destruct (settingsShown (store s)); cbn; eauto.
  - cbn [step]. destruct (convertButtonShown (store s)); eauto.
    unfold convertPDFToImages. rewrite Hf. cbn. eauto.
  - destruct (resumed_effect env i s) as [E _].
    rewrite E. eauto.
Qed.

Lemma step_before_load env ev s :
  (file (store s) = None -> s = mounted) ->
  file (store (step env ev s)) = None -> step env ev s = mounted.
Proof.
  intros Inv H. destruct (file (store s)) as [f|] eqn:Hf.
  - destruct (step_file_kept env ev s f Hf) as [g Hg]. congruence.
  - rewrite (Inv eq_refl) in *. clear Inv Hf.
    destruct ev as [fo | files | q | | i]; try reflexivity.
    + destruct fo as [g|]; [|reflexivity].
      cbn [step store calls handleFileSelect mounted] in *.
      destruct (isPdf g); [cbn in H; discriminate H | reflexivity].
    + cbn [step store calls mounted] in *. unfold onDrop in *.
      destruct (find isPdf files); [cbn in H; discriminate H | reflexivity].
    + destruct i; reflexivity.
Qed.

(** X12: until a PDF is loaded nothing can happen: as long as the session has
    no file, the component is exactly as it was after mounting, with no
    call in flight, whatever the events were. *)
Theorem nothing_happens_before_load env evs :
  file (store (exec env evs mounted)) = None ->
  exec env evs mounted = mounted.
Proof.
  apply (exec_invariant env
           (fun s => file (store s) = None -> s = mounted)); trivial.
  intros ev s. apply step_before_load.
Qed.

Lemma nothing_happens_before_load_witness :
  exec (scripted 2 allRendered)
       [QualityChanged low; ConvertClicked; Resumed 0;
        FileSelected (Some (mkFile "notes.txt" "text/plain")); FilesDropped []]
       mounted = mounted.
Proof.
  apply (nothing_happens_before_load (scripted 2 allRendered)). reflexivity.
Defined.

(** X13: once a file is loaded the session never loses it. *)
Theorem file_never_unset env evs s f :
  file (store s) = Some f ->
  exists g, file (store (exec env evs s)) = Some g.
Proof.
  intros Hf.
  apply (exec_invariant env (fun s => exists g, file (store s) = Some g)).
  - intros ev s' [g Hg]. now apply (step_file_kept env ev s' g).
  - now exists f.
Qed.

Lemma file_never_unset_witness :
  exists g,
    file (store (exec unreadable
                   [ConvertClicked; Resumed 0; FileSelected None; QualityChanged low]
                   (mkSystem loaded []))) = Some g.
Proof.
  apply (file_never_unset unreadable _ (mkSystem loaded []) pdfA). reflexivity.
Defined.

(** ** A call in flight cannot be stopped *)

(** With one call in flight and no further click, the call proceeds as if
    it were alone: file loads and quality changes between its resumptions
    do not reach it. *)
Lemma exec_one_call env evs : forall c st,
  forallb withoutClick evs = true ->
  calls (exec env evs (mkSystem st [c])) = [fst (runFor env (resumes evs) c st)].
Proof.
  induction evs as [|ev evs IH]; intros c st Hev; [reflexivity|].
  cbn [forallb] in Hev. apply andb_true_iff in Hev as [Hev1 Hevs].
  rewrite exec_cons.
  destruct ev as [fo | files | q | | i]; try discriminate Hev1.
  - cbn [step store calls resumes]. rewrite IH by trivial.
    f_equal. apply runFor_call.
  - cbn [step store calls resumes]. rewrite IH by trivial.
    f_equal. apply runFor_call.
  - cbn [step store calls resumes].
    destruct (settingsShown st); cbn [store calls]; rewrite IH by trivial;
      f_equal; apply runFor_call.
  - destruct i as [|i]; [|discriminate Hev1].
    cbn [step store calls resumes resumeAt]. rewrite runFor_S.
    destruct (resume env c) as [c1 u]. cbn [fst snd]. now apply IH.
Qed.

Lemma call_after_all_pages env st st0 f N (d : nat -> string) :
  numPages env f = Some N ->
  (forall j, (1 <= j <= N)%nat ->
     renderPage env f j (qualitySettings (quality st)) = Rendered (d j)) ->
  fst (runFor env (S N) (Loading st f) st0) =
  Looping f (mkLocals N (map d (seq 1 N)) (qualitySettings (quality st)) (S N)).
Proof.
  intros HN Hr. rewrite runFor_S. cbn [resume]. rewrite HN. cbn [fst snd applyOpt].
  destruct N as [|m]; [reflexivity|].
  rewrite (loop_rendered env f d (S m) _ m [] 1);
    [reflexivity | intros j Hj; apply Hr; lia | lia].
Qed.

(** X14: loading another file, or changing the quality, while a run is in
    progress does not cancel the run: when every page of the first file
    renders, the call completes all the same, and its last resumption
    leaves the session [completed] and holding the pages of the file the
    run was started on, with the download button rendered. *)
Theorem run_survives_load env st f N (d : nat -> string) evs :
  file st = Some f ->
  convertButtonShown st = true ->
  numPages env f = Some N ->
  (1 <= N)%nat ->
  (forall j, (1 <= j <= N)%nat ->
     renderPage env f j (qualitySettings (quality st)) = Rendered (d j)) ->
  forallb withoutClick evs = true ->
  resumes evs = S N ->
  calls (exec env (ConvertClicked :: evs ++ [Resumed 0]) (mkSystem st []))
    = [Returned] /\
  status (store (exec env (ConvertClicked :: evs ++ [Resumed 0]) (mkSystem st [])))
    = completed /\
  pages (store (exec env (ConvertClicked :: evs ++ [Resumed 0]) (mkSystem st [])))
    = map d (seq 1 N) /\
  downloadButtonShown
    (store (exec env (ConvertClicked :: evs ++ [Resumed 0]) (mkSystem st [])))
    = true.
Proof.
  intros Hf Hshown HN Hpos Hr Hev Hn.
  rewrite exec_cons. cbn [step store calls]. rewrite Hshown.
  unfold convertPDFToImages. rewrite Hf. cbn [applyOpt app].
  rewrite exec_app.
  pose proof (exec_one_call env evs (Loading st f) (applyUpdate UStart st) Hev) as Hc.
  rewrite Hn, (call_after_all_pages env st _ f N d HN Hr) in Hc.
  destruct (exec env evs (mkSystem (applyUpdate UStart st) [Loading st f]))
    as [st1 cs1].
  cbn [calls] in Hc. subst cs1.
  unfold exec. cbn [fold_left step store calls resumeAt resume
                    pageNum totalPages images].
  replace (S N <=? N)%nat with false by (symmetry; apply Nat.leb_gt; lia).
  cbn [applyOpt applyUpdate store calls status pages].
  repeat split. unfold downloadButtonShown. cbn [status pages status_eqb andb].
  rewrite length_map, length_seq. apply Nat.ltb_lt. lia.
Qed.

(** The second file is loaded after the first page of [pdfA]. *)
Lemma run_survives_load_witness :
  calls (exec (named 2)
           (ConvertClicked ::
            [Resumed 0; Resumed 0; FileSelected (Some pdfB); Resumed 0]
            ++ [Resumed 0])
           (mkSystem loaded []))
    = [Returned] /\
  status (store (exec (named 2)
           (ConvertClicked ::
            [Resumed 0; Resumed 0; FileSelected (Some pdfB); Resumed 0]
            ++ [Resumed 0])
           (mkSystem loaded [])))
    = completed /\
  pages (store (exec (named 2)
           (ConvertClicked ::
            [Resumed 0; Resumed 0; FileSelected (Some pdfB); Resumed 0]
            ++ [Resumed 0])
           (mkSystem loaded [])))
    = map (fun j => (name pdfA ++ pageData j)%string) (seq 1 2) /\
  downloadButtonShown
    (store (exec (named 2)
           (ConvertClicked ::
            [Resumed 0; Resumed 0; FileSelected (Some pdfB); Resumed 0]
            ++ [Resumed 0])
           (mkSystem loaded [])))
    = true.
Proof.
  apply (run_survives_load (named 2) loaded pdfA 2
           (fun j => (name pdfA ++ pageData j)%string)
           [Resumed 0; Resumed 0; FileSelected (Some pdfB); Resumed 0]).
  - reflexivity.
  - reflexivity.
  - reflexivity.
  - lia.
  - intros j Hj; reflexivity.
  - reflexivity.
  - reflexivity.
Defined.

(** In that session the store ends with the second file and the pages of
    the first, and the download would carry the second file's name. *)
Example stale_pages_under_new_name :
  store (exec (named 2)
           [ConvertClicked; Resumed 0; Resumed 0; FileSelected (Some pdfB);
            Resumed 0; Resumed 0]
           (mkSystem loaded []))
  = mkState (Some pdfB) ["a.pdfdata:page1"; "a.pdfdata:page2"] (progressAt 2 2)
            completed high /\
  fileName (store (exec (named 2)
           [ConvertClicked; Resumed 0; Resumed 0; FileSelected (Some pdfB);
            Resumed 0; Resumed 0]
           (mkSystem loaded [])))
  = "b_image-only.pdf".
Proof. split; reflexivity. Qed.

(** ** Loading, once more *)

(** X15: a drop is the selection of the first PDF among the dropped files; a
    drop without a PDF, like a selection of none, changes nothing. *)
Theorem onDrop_selects_first_pdf (files : list File) (st : ConversionState) :
  onDrop files st = handleFileSelect (find isPdf files) st.
Proof.
  unfold onDrop, handleFileSelect.
  destruct (find isPdf files) as [f|] eqn:E; trivial.
  apply find_some in E as [_ E]. now rewrite E.
Qed.

(** X16: loading a PDF discards what a previous run left: the convert button
    is rendered again, the progress card and the download button are not,
    and a download would do nothing. *)
Theorem load_discards_results (env : JsPdf) (st : ConversionState) (f : File) :
  isPdf f = true ->
  convertButtonShown (handleFileSelect (Some f) st) = true /\
  progressShown (handleFileSelect (Some f) st) = false /\
  downloadButtonShown (handleFileSelect (Some f) st) = false /\
  downloadImagePDF env (handleFileSelect (Some f) st) = NothingDone.
Proof.
  intros Hpdf. unfold handleFileSelect. rewrite Hpdf. repeat split.
Qed.

Lemma load_discards_results_witness :
  convertButtonShown (handleFileSelect (Some pdfB) signedDraft) = true /\
  progressShown (handleFileSelect (Some pdfB) signedDraft) = false /\
  downloadButtonShown (handleFileSelect (Some pdfB) signedDraft) = false /\
  downloadImagePDF a4 (handleFileSelect (Some pdfB) signedDraft) = NothingDone.
Proof. apply (load_discards_results a4 signedDraft pdfB). reflexivity. Defined.

(** ** The placed rectangle *)

Lemma Qgtb_compat (a a' b b' : Q) :
  a == a' -> b == b' -> Qgtb a b = Qgtb a' b'.
Proof.
  intros Ha Hb.
  destruct (Qgtb a b) eqn:E; symmetry.
  - apply Qgtb_true. apply Qgtb_true in E. now rewrite <- Ha, <- Hb.
  - apply Qgtb_false. apply Qgtb_false in E. now rewrite <- Ha, <- Hb.
Qed.

(** X22: the placement depends on the image through its aspect ratio alone:
    an image of [c] times the pixel width and height is given the same
    rectangle. *)
Theorem placeImage_scale_invariant (c iw ih pw ph : Q) :
  0 < c -> 0 < ih ->
  x (placeImage (c * iw) (c * ih) pw ph) == x (placeImage iw ih pw ph) /\
  y (placeImage (c * iw) (c * ih) pw ph) == y (placeImage iw ih pw ph) /\
  width (placeImage (c * iw) (c * ih) pw ph) == width (placeImage iw ih pw ph) /\
  height (placeImage (c * iw) (c * ih) pw ph) == height (placeImage iw ih pw ph).
Proof.
  intros Hc Hih.
  assert (Ea : c * iw / (c * ih) == iw / ih).
  { field. split; now apply Qpos_neq0. }
  unfold placeImage. rewrite (Qgtb_compat _ _ _ _ Ea (Qeq_refl (pw / ph))).
  destruct (Qgtb (iw / ih) (pw / ph)); cbn [x y width height];
    rewrite Ea; repeat split; reflexivity.
Qed.

Lemma placeImage_scale_invariant_witness :
  x (placeImage (2 * 800) (2 * 500) 210 297) == x (placeImage 800 500 210 297) /\
  y (placeImage (2 * 800) (2 * 500) 210 297) == y (placeImage 800 500 210 297) /\
  width (placeImage (2 * 800) (2 * 500) 210 297)
    == width (placeImage 800 500 210 297) /\
  height (placeImage (2 * 800) (2 * 500) 210 297)
    == height (placeImage 800 500 210 297).
Proof. apply (placeImage_scale_invariant 2 800 500 210 297); reflexivity. Defined.

(** ** Assembling the output document *)

Lemma inject_Z_pos (z : Z) : (0 < z)%Z -> 0 < inject_Z z.
Proof. intros H. unfold Qlt; cbn. lia. Qed.

Lemma placePages_adds env ps :
  addsAll env ps ->
  exists doc,
    placePages env ps = Some doc /\
    map image doc = ps /\
    Forall (placedBy env) doc.
Proof.
  intros Hadd. induction ps as [|d ps IH].
  - exists []. repeat split. constructor.
  - destruct (Hadd d (or_introl eq_refl)) as (w & h & Hs & Ha).
    destruct IH as (doc & Hdoc & Himg & Hin).
    { intros d' Hd'. apply Hadd. now right. }
    cbn [placePages]. rewrite Hs. cbn zeta. rewrite Ha, Hdoc.
    eexists. split; [reflexivity|].
    cbn [map image]. split; [now rewrite Himg|].
    constructor; trivial. exists w, h. now split.
Qed.

Lemma placePages_none env ps d :
  In d ps -> imageSize env d = None -> placePages env ps = None.
Proof.
  intros Hin Hn. induction ps as [|d' ps IH]; [contradiction|].
  cbn [placePages]. destruct Hin as [-> | Hin].
  - now rewrite Hn.
  - destruct (imageSize env d') as [[w h]|]; trivial. cbn zeta.
    destruct (addImage env d' _); trivial. now rewrite IH.
Qed.

(** X23: with at least one raster page, when for every raster page the
    image loads and [addImage] takes it, and [save] returns, the download
    saves, under the name of line 164, a document of one page per raster
    page, in the order of [pages], each carrying the rectangle computed in
    doubles for its image's size. *)
Theorem download_saves_all_pages (env : JsPdf) (st : ConversionState) :
  pages st <> [] ->
  addsAll env (pages st) ->
  saves env (fileName st) = true ->
  exists doc,
    downloadImagePDF env st = Saved (fileName st) doc /\
    map image doc = pages st /\
    Forall (placedBy env) doc.
Proof.
  intros Hne Hadd Hsave.
  destruct (placePages_adds env (pages st) Hadd) as (doc & Hdoc & Himg & Hin).
  exists doc. unfold downloadImagePDF.
  destruct (pages st) as [|p ps] eqn:Hp; [congruence|].
  cbn [List.length Nat.eqb]. rewrite Hdoc, Hsave. now repeat split.
Qed.

Lemma download_saves_all_pages_witness :
  exists doc,
    downloadImagePDF a4
      (mkState (Some pdfA) ["data:page1"; "data:page2"; "data:page3"] 100
               completed high)
    = Saved (fileName (mkState (Some pdfA)
                         ["data:page1"; "data:page2"; "data:page3"] 100
                         completed high)) doc /\
    map image doc
    = pages (mkState (Some pdfA) ["data:page1"; "data:page2"; "data:page3"] 100
                     completed high) /\
    Forall (placedBy a4) doc.
Proof.
  apply (download_saves_all_pages a4
           (mkState (Some pdfA) ["data:page1"; "data:page2"; "data:page3"] 100
                    completed high)).
  - discriminate.
  - intros d _. exists 1600%float, 1000%float. split; reflexivity.
  - reflexivity.
Defined.

(** X24: when one image never loads, the call stays suspended on the promise
    of line 138: nothing is saved and no error is reported, the [catch]
    being out of reach. *)
Theorem download_waits_forever (env : JsPdf) (st : ConversionState) (d : string) :
  In d (pages st) ->
  imageSize env d = None ->
  downloadImagePDF env st = Pending /\
  reportsError (downloadImagePDF env st) = false.
Proof.
  intros Hin Hn.
  assert (E : downloadImagePDF env st = Pending).
  { unfold downloadImagePDF. rewrite (placePages_none env _ d Hin Hn).
    destruct (pages st); [contradiction | reflexivity]. }
  now rewrite E.
Qed.

Lemma download_waits_forever_witness :
  downloadImagePDF brokenImage
    (mkState (Some pdfA) ["data:page1"; "data:page2"] 100 completed high) = Pending /\
  reportsError
    (downloadImagePDF brokenImage
       (mkState (Some pdfA) ["data:page1"; "data:page2"] 100 completed high)) = false.
Proof.
  apply (download_waits_forever brokenImage _ "data:page2").
  - right; left; reflexivity.
  - reflexivity.
Defined.

(** X25: conversion and download together: when every page of an [N]-page
    document renders, every raster page loads and is taken by [addImage],
    and [save] returns, the session after the run shows the download
    button, and the download saves a document whose pages carry the raster
    pages 1 to [N] in source order, under the name derived from the source
    file. *)
Theorem convert_then_download env jspdf st f N (d : nat -> string) :
  file st = Some f ->
  numPages env f = Some N ->
  (1 <= N)%nat ->
  (forall j, (1 <= j <= N)%nat ->
     renderPage env f j (qualitySettings (quality st)) = Rendered (d j)) ->
  addsAll jspdf (map d (seq 1 N)) ->
  saves jspdf (fileName st) = true ->
  downloadButtonShown (snd (convertRun env (N + 2) st)) = true /\
  exists doc,
    downloadImagePDF jspdf (snd (convertRun env (N + 2) st))
      = Saved (fileName st) doc /\
    map image doc = map d (seq 1 N).
Proof.
  intros Hf HN Hpos Hr Hadd Hsave.
  rewrite (all_rendered_completes env st f N d Hf HN Hpos Hr). cbn [snd].
  set (st' := mkState (Some f) (map d (seq 1 N)) (progressAt N N) completed
                      (quality st)).
  assert (Hname : fileName st' = fileName st).
  { unfold fileName, st'. cbn [file]. now rewrite Hf. }
  split.
  - unfold downloadButtonShown, st'. cbn [status pages status_eqb andb].
    rewrite length_map, length_seq. apply Nat.ltb_lt. lia.
  - destruct (placePages_adds jspdf (map d (seq 1 N)) Hadd)
      as (doc & Hdoc & Himg & _).
    exists doc. split; trivial.
    unfold downloadImagePDF. rewrite Hname. unfold st'. cbn [pages].
    rewrite Hdoc, Hsave, length_map, length_seq.
    destruct N; [lia | reflexivity].
Qed.

Lemma convert_then_download_witness :
  downloadButtonShown (snd (convertRun (scripted 2 allRendered) (2 + 2) loaded))
    = true /\
  exists doc,
    downloadImagePDF a4 (snd (convertRun (scripted 2 allRendered) (2 + 2) loaded))
      = Saved (fileName loaded) doc /\
    map image doc = map pageData (seq 1 2).
Proof.
  apply (convert_then_download (scripted 2 allRendered) a4 loaded pdfA 2 pageData).
  - reflexivity.
  - reflexivity.
  - lia.
  - intros j Hj; reflexivity.
  - intros d _. exists 1600%float, 1000%float. split; reflexivity.
  - reflexivity.
Defined.

(** ** The progress card *)

Lemma inject_Z_of_nat_pos (n : nat) : (1 <= n)%nat -> 0 < inject_Z (Z.of_nat n).
Proof. intros H. apply inject_Z_pos. lia. Qed.

Lemma processing_page_bound (k N : nat) :
  (k + 1 < N)%nat ->
  (Qceiling (progressAt k N / 100 * inject_Z (Z.of_nat (k + 1))) <= Z.of_nat k)%Z.
Proof.
  intros Hk.
  apply Z.le_trans with (Qceiling (inject_Z (Z.of_nat k)));
    [| rewrite Qceiling_Z; lia].
  apply Qceiling_resp_le.
  assert (HN : 0 < inject_Z (Z.of_nat N)) by (apply inject_Z_of_nat_pos; lia).
  setoid_replace (progressAt k N / 100 * inject_Z (Z.of_nat (k + 1)))
    with (inject_Z (Z.of_nat (k + 1)) / inject_Z (Z.of_nat N)
          * inject_Z (Z.of_nat k))
    by (unfold progressAt; field; now apply Qpos_neq0).
  rewrite <- (Qmult_1_l (inject_Z (Z.of_nat k))) at 2.
  apply Qmult_le_compat_r.
  - apply Qle_shift_div_r; trivial. rewrite Qmult_1_l.
    rewrite <- Zle_Qle. lia.
  - unfold Qle; cbn. lia.
Qed.

(** X26: while every page renders and at least two pages remain, the line
    "Processing page ... of your PDF" of the progress card shows a number
    that is at most the number of pages already converted: it shows 0
    before the first page and never the page that is being processed. *)
Theorem processing_page_lags env st f N (d : nat -> string) k :
  file st = Some f ->
  numPages env f = Some N ->
  (forall j, (1 <= j <= N)%nat ->
     renderPage env f j (qualitySettings (quality st)) = Rendered (d j)) ->
  (k + 1 < N)%nat ->
  progressShown (snd (convertRun env (1 + k) st)) = true /\
  List.length (pages (snd (convertRun env (1 + k) st))) = k /\
  (processingPageShown (snd (convertRun env (1 + k) st)) <= Z.of_nat k)%Z.
Proof.
  intros Hf HN Hr Hk. unfold convertRun, convertPDFToImages. rewrite Hf.
  change (1 + k)%nat with (S k). rewrite runFor_S. cbn [resume]. rewrite HN.
  cbn [fst snd applyOpt].
  destruct k as [|m].
  - cbn. repeat split. discriminate.
  - rewrite (loop_rendered env f d N _ m [] 1);
      [| intros j Hj; apply Hr; lia | lia].
    cbn [snd]. unfold progressShown, processingPageShown.
    cbn [status pages progress applyUpdate status_eqb app].
    rewrite length_map, length_seq.
    repeat split. apply (processing_page_bound (S m) N Hk).
Qed.

Lemma processing_page_lags_witness :
  progressShown (snd (convertRun (scripted 5 allRendered) (1 + 3) loaded)) = true /\
  List.length (pages (snd (convertRun (scripted 5 allRendered) (1 + 3) loaded)))
    = 3%nat /\
  (processingPageShown (snd (convertRun (scripted 5 allRendered) (1 + 3) loaded))
   <= Z.of_nat 3)%Z.
Proof.
  apply (processing_page_lags (scripted 5 allRendered) loaded pdfA 5 pageData 3).
  - reflexivity.
  - reflexivity.
  - intros j Hj; reflexivity.
  - lia.
Defined.

Example processing_page_after_three_of_five :
  processingPageShown (snd (convertRun (scripted 5 allRendered) 4 loaded)) = 3%Z.
Proof. reflexivity. Qed.

(** X11: whatever the user does, however many calls are in flight and
    whatever pdf.js answers, the progress of the session stays between 0
    and 100, and the percentage the progress card shows is a whole number
    from 0 to 100. *)
Theorem progress_stays_in_range env evs :
  inRange (progress (store (exec env evs mounted))) /\
  (0 <= percentShown (store (exec env evs mounted)) <= 100)%Z.
Proof.
  pose proof (progress_invariant env evs) as Hp. split; [exact Hp|].
  destruct Hp as [H0 H100].
  unfold percentShown.
  set (p := progress (store (exec env evs mounted))) in *. clearbody p.
  split.
  - change 0%Z with (Qfloor 0). apply Qfloor_resp_le. lra.
  - apply Z.le_trans with (Qfloor (100 + (1 # 2))); [| reflexivity].
    apply Qfloor_resp_le. lra.
Qed.

(** ** How the status can change *)

Lemma status_eqb_eq a b : status_eqb a b = true -> a = b.
Proof. destruct a, b; cbn; congruence. Qed.

(** X17: one event changes the status in one of three ways only: a load puts
    it to [idle]; a click on the convert button, which needs a file and the
    status [idle], puts it to [processing]; a resumed call puts it to
    [completed] or [error]. *)
Theorem status_transitions env ev s :
  status (store (step env ev s)) = status (store s) \/
  (status (store (step env ev s)) = idle /\
   ((exists f, ev = FileSelected (Some f) /\ isPdf f = true) \/
    (exists files f, ev = FilesDropped files /\ find isPdf files = Some f))) \/
  (status (store (step env ev s)) = processing /\
   status (store s) = idle /\ ev = ConvertClicked /\
   exists f, file (store s) = Some f) \/
  (finished (store (step env ev s)) /\ exists i, ev = Resumed i).
Proof.
  destruct ev as [fo | files | q | | i].
  - destruct fo as [f|]; [|now left].
    cbn [step store handleFileSelect]. destruct (isPdf f) eqn:E; [|now left].
    right; left. split; [reflexivity|]. left. now exists f.
  - cbn [step store]. unfold onDrop. destruct (find isPdf files) as [f|] eqn:E;
      [|now left].
    right; left. split; [reflexivity|]. right. now exists files, f.
  - cbn [step]. destruct (settingsShown (store s)); now left.
  - cbn [step]. destruct (convertButtonShown (store s)) eqn:E; [|now left].
    unfold convertButtonShown in E. apply andb_true_iff in E as [Hf Hs].
    apply status_eqb_eq in Hs.
    unfold convertPDFToImages. destruct (file (store s)) as [f|] eqn:Hfile;
      [|discriminate Hf].
    right; right; left. cbn. repeat split; trivial. now exists f.
  - destruct (resumed_effect env i s) as (_ & _ & [H | H]).
    + now left.
    + right; right; right. split; trivial. now exists i.
Qed.
